(** * A shallow embedding of the workflow engine (app/engine.py, app/models.py)

    The engine executes a graph of named nodes against a shared state
    dictionary.  The embedding follows the Python text:

    - Python dictionaries are finite maps ([gmap]) with string keys;
    - values stored in the state are the scalar Python values
      ([None], [bool], [int], [str]);
    - objects stored in the edge table are scalar values or callables;
    - a call either returns or raises an [Exception]; the exception is kept
      with its class and message because the engine stores [str(e)];
    - the functions that mutate the Run Record ([_execute] and its loop) are
      written in a state-and-exception monad over [RunState].

    Node functions and predicates are functions of the state they are
    handed: they read it and do not write to it, as the nodes of
    app/workflows/code_review.py do.  Identifiers drawn by [uuid.uuid4()]
    are arguments.  A task scheduled with [asyncio.create_task] runs to its
    end in one piece when the event loop picks it. *)

From Stdlib Require Import ZArith String Ascii List Lia.
From stdpp Require Import base gmap strings list fin_maps pretty.
From Equations Require Import Equations.

Local Open Scope Z_scope.
Local Open Scope string_scope.

(** ** Python values *)

(** What a node may store under a key of the state. *)
Inductive value : Type :=
| VNone
| VBool (b : bool)
| VInt (z : Z)
| VStr (s : string).

(** A Python [dict] whose values are scalars: the shared run state. *)
Abbreviation dict := (gmap string value).

(** A raised exception: its class and the argument it was built with.
    All are instances of [Exception], which is what the two [except]
    clauses of the engine catch. *)
Inductive exn : Type :=
| KeyError (msg : string)
| ValueError (msg : string)
| TypeError (msg : string)
| OtherError (msg : string).

(** [str(e)].  [KeyError] prints the [repr] of its argument: the message
    between single quotes, which is exact for a message without quote,
    backslash or control character, as all messages of the engine are. *)
Definition str_exn (e : exn) : string :=
  match e with
  | KeyError msg => "'" +:+ msg +:+ "'"
  | ValueError msg | TypeError msg | OtherError msg => msg
  end.

(** The outcome of evaluating a Python expression. *)
Inductive result (A : Type) : Type :=
| Return (a : A)
| Raise (e : exn).
Arguments Return {A} a.
Arguments Raise {A} e.

(** What a call hands back before any [await]: a plain object, or a
    coroutine object that yields [r] once it is awaited. *)
Inductive awaitable (A : Type) : Type :=
| Plain (a : A)
| Coroutine (r : result A).
Arguments Plain {A} a.
Arguments Coroutine {A} r.

(** [res = f(x); if inspect.iscoroutine(res): res = await res] *)
Definition await_if_coroutine {A} (r : result (awaitable A)) : result A :=
  match r with
  | Return (Plain a) => Return a
  | Return (Coroutine r') => r'
  | Raise e => Raise e
  end.

(** A callable found in an edge descriptor under ["cond"]. *)
Definition cond_fn : Type := dict → result (awaitable value).

(** An object stored in the edge table: a scalar or a callable.  The
    callable carries the text [str()] prints for it. *)
Inductive obj : Type :=
| OData (v : value)
| OCallable (repr : string) (f : cond_fn).

Abbreviation PyNone := (OData VNone).
Abbreviation PyStr s := (OData (VStr s)).

(** [str(o)], as the f-strings of the log entries print it. *)
Definition to_str (o : obj) : string :=
  match o with
  | OData VNone => "None"
  | OData (VBool true) => "True"
  | OData (VBool false) => "False"
  | OData (VInt z) => pretty z
  | OData (VStr s) => s
  | OCallable repr _ => repr
  end.

(** [type(o).__name__], used in the messages of [TypeError]. *)
Definition type_name (o : obj) : string :=
  match o with
  | OData VNone => "NoneType"
  | OData (VBool _) => "bool"
  | OData (VInt _) => "int"
  | OData (VStr _) => "str"
  | OCallable _ _ => "function"
  end.

(** Truth value of an object in a condition ([if x:]). *)
Definition truthy (v : value) : bool :=
  match v with
  | VNone => false
  | VBool b => b
  | VInt z => negb (z =? 0)%Z
  | VStr s => negb (String.eqb s "")
  end.

(** [if s:] for an optional string: present and not empty. *)
Definition nonempty (o : option string) : option string :=
  match o with
  | Some s => if String.eqb s "" then None else Some s
  | None => None
  end.

(** [o is None] *)
Definition is_none (o : obj) : bool :=
  match o with
  | OData VNone => true
  | _ => false
  end.

(** ** The records of app/models.py *)

(** [class NodeResult(BaseModel)] *)
Record NodeResult : Type := mkNodeResult {
  nr_state : dict;
  nr_log : option string;
  nr_next_node : option string
}.

(** What a node function may hand back: a [NodeResult], a [dict], or any
    other object (here a scalar, [None] included). *)
Inductive node_ret : Type :=
| RetResult (nr : NodeResult)
| RetDict (d : dict)
| RetOther (v : value).

(** A node callable.  [NAsync] is a coroutine function
    ([inspect.iscoroutinefunction] holds): calling it only builds the
    coroutine and awaiting it gives the outcome.  [NSync] is any other
    callable: the call itself may raise, and may hand back a coroutine. *)
Inductive node_fn : Type :=
| NAsync (body : dict → result node_ret)
| NSync (body : dict → result (awaitable node_ret)).

(** An entry of the edge table: a scalar or callable object, or a [dict]
    of such objects (a branching descriptor). *)
Inductive edge : Type :=
| EObj (o : obj)
| EDict (d : gmap string obj).

(** [class GraphSpec(BaseModel)] *)
Record GraphSpec : Type := mkGraphSpec {
  nodes : gmap string node_fn;
  edges : gmap string edge;
  start_node : string;
  max_steps : option Z
}.

(** [class RunState(BaseModel)].  [current_node] is assigned the loop
    variable [current] without validation, so it holds an object. *)
Record RunState : Type := mkRunState {
  run_id : string;
  graph_id : string;
  state : dict;
  logs : list string;
  current_node : obj;
  finished : bool;
  error : option string
}.

Definition set_state (st : dict) (rs : RunState) : RunState :=
  mkRunState (run_id rs) (graph_id rs) st (logs rs) (current_node rs)
             (finished rs) (error rs).
Definition append_log (l : string) (rs : RunState) : RunState :=
  mkRunState (run_id rs) (graph_id rs) (state rs) (logs rs ++ [l])
             (current_node rs) (finished rs) (error rs).
Definition set_current_node (c : obj) (rs : RunState) : RunState :=
  mkRunState (run_id rs) (graph_id rs) (state rs) (logs rs) c
             (finished rs) (error rs).
Definition set_finished (b : bool) (rs : RunState) : RunState :=
  mkRunState (run_id rs) (graph_id rs) (state rs) (logs rs) (current_node rs)
             b (error rs).
Definition set_error (e : option string) (rs : RunState) : RunState :=
  mkRunState (run_id rs) (graph_id rs) (state rs) (logs rs) (current_node rs)
             (finished rs) e.

(** ** Exceptions as a monad *)

#[global] Instance result_ret : MRet result := fun A a => Return a.
#[global] Instance result_bind : MBind result := fun A B k r =>
  match r with
  | Return a => k a
  | Raise e => Raise e
  end.

(** ** The Invocation Adapter: [WorkflowEngine._call_node] *)

(** The exception Python raises when [None] is called. *)
Definition none_not_callable : exn :=
  TypeError "'NoneType' object is not callable".

(** Lines 25-31: call the node, awaiting it when it is, or hands back, a
    coroutine.  [node_fn] is what [nodes.get(current)] gave: [None] when
    the name is not a key, and then the call on line 29 raises. *)
Definition invoke_node (node_fn : option node_fn) (state : dict)
  : result node_ret :=
  match node_fn with
  | Some (NAsync body) => body state
  | Some (NSync body) => await_if_coroutine (body state)
  | None => Raise none_not_callable
  end.

(** Lines 33-41: sort the returned object into the pair
    [(new_state, node_res)]. *)
Definition wrap_result (res : node_ret) (state : dict) : dict * NodeResult :=
  match res with
  | RetResult nr => (nr_state nr, nr)
  | RetDict d => (d, mkNodeResult d (Some "node returned dict") None)
  | RetOther _ =>
      (state,
       mkNodeResult state (Some "node returned unexpected type; no change") None)
  end.

Definition _call_node (node_fn : option node_fn) (state : dict)
  : result (dict * NodeResult) :=
  res ← invoke_node node_fn state;
  Return (wrap_result res state).

(** ** The Branch Resolver: lines 104-146 of [_execute] *)

(** [d.get(k)] on a [dict] of objects: [None] when the key is missing. *)
Definition dict_get (d : gmap string obj) (k : string) : obj :=
  default PyNone (d !! k).

(** [state.get(key)] for an object [key].  The keys of [state] are strings,
    so any other (hashable) key is missing. *)
Definition state_get (state : dict) (key : obj) : value :=
  match key with
  | OData (VStr k) => default VNone (state !! k)
  | _ => VNone
  end.

(** [edges.get(current)] and [nodes.get(current)]: same remark. *)
Definition table_get {A} (table : gmap string A) (key : obj) : option A :=
  match key with
  | OData (VStr k) => table !! k
  | _ => None
  end.

(** Numbers as Python compares them: [bool] is a subclass of [int]. *)
Definition as_number (o : obj) : option Z :=
  match o with
  | OData (VBool b) => Some (Z.b2z b)
  | OData (VInt z) => Some z
  | _ => None
  end.

Definition as_str (o : obj) : option string :=
  match o with
  | OData (VStr s) => Some s
  | _ => None
  end.

(** [a == b]: never raises; objects of unrelated types are unequal. *)
Definition py_eq (a b : obj) : bool :=
  match as_number a, as_number b with
  | Some x, Some y => (x =? y)%Z
  | _, _ =>
      match a, b with
      | OData VNone, OData VNone => true
      | OData (VStr s), OData (VStr t) => String.eqb s t
      | _, _ => false
      end
  end.

(** [a <op> b] for an ordering operator written [sym]: numbers compare by
    value, strings by code points, anything else raises [TypeError]. *)
Definition py_order (sym : string)
    (on_Z : Z → Z → bool) (on_str : string → string → bool)
    (a b : obj) : result bool :=
  match as_number a, as_number b with
  | Some x, Some y => Return (on_Z x y)
  | _, _ =>
      match as_str a, as_str b with
      | Some s, Some t => Return (on_str s t)
      | _, _ =>
          Raise (TypeError ("'" +:+ sym +:+ "' not supported between instances of '"
                            +:+ type_name a +:+ "' and '" +:+ type_name b +:+ "'"))
      end
  end.

Definition py_ge := py_order ">=" Z.geb (fun s t => String.leb t s).
Definition py_le := py_order "<=" Z.leb String.leb.
Definition py_gt := py_order ">" Z.gtb (fun s t => String.ltb t s).
Definition py_lt := py_order "<" Z.ltb String.ltb.

(** The operators [field_branch] tests for before its equality default. *)
Definition ordering_op (op : obj) : bool :=
  py_eq op (PyStr ">=") || py_eq op (PyStr "<=") ||
  py_eq op (PyStr ">") || py_eq op (PyStr "<").

(** [val is not None and val <op> cmp_val] *)
Definition not_none_and (cmp : obj → obj → result bool) (val : value) (cmp_val : obj)
  : result bool :=
  match val with
  | VNone => Return false
  | _ => cmp (OData val) cmp_val
  end.

(** Lines 128-144: key-based branching by a state field, or the ["next"]
    entry when the descriptor has no ["field"]. *)
Definition field_branch (d : gmap string obj) (state : dict) : result obj :=
  match d !! "field" with
  | Some field =>
      let val := state_get state field in
      let op := default (PyStr "==") (d !! "op") in
      let cmp_val := dict_get d "value" in
      take_true ←
        (if py_eq op (PyStr ">=") then not_none_and py_ge val cmp_val
         else if py_eq op (PyStr "<=") then not_none_and py_le val cmp_val
         else if py_eq op (PyStr ">") then not_none_and py_gt val cmp_val
         else if py_eq op (PyStr "<") then not_none_and py_lt val cmp_val
         else Return (py_eq (OData val) cmp_val));
      Return (if take_true : bool then dict_get d "true" else dict_get d "false")
  | None => Return (dict_get d "next")
  end.

(** Lines 119-124: evaluate the predicate inside [try]; an exception from
    the call or from awaiting its coroutine makes [cond_res] false. *)
Definition eval_cond (cond : cond_fn) (state : dict) : bool :=
  match await_if_coroutine (cond state) with
  | Return v => truthy v
  | Raise _ => false
  end.

(** Lines 112-146: the edge table decides. *)
Definition edge_branch (edges : gmap string edge) (current : obj) (state : dict)
  : result obj :=
  match table_get edges current with
  | None => Return PyNone
  | Some (EObj (OData VNone)) => Return PyNone
  | Some (EObj (OData (VStr next))) => Return (PyStr next)
  | Some (EDict d) =>
      match d !! "cond" with
      | Some (OCallable _ cond) =>
          Return (if eval_cond cond state
                  then dict_get d "true" else dict_get d "false")
      | _ => field_branch d state
      end
  | Some (EObj _) => Return PyNone
  end.

(** Lines 105-146: the next node after [current]. *)
Definition resolve (edges : gmap string edge) (current : obj)
    (node_res : NodeResult) (state : dict) : result obj :=
  match nonempty (nr_next_node node_res) with
  | Some next => Return (PyStr next)
  | None => edge_branch edges current state
  end.

(** ** Mutation of the Run Record as a monad

    [_execute] mutates the [RunState] object it was given and may raise in
    the middle; what was written before the exception stays written.  A
    computation therefore maps the record to the updated record and an
    outcome. *)

Definition run_m (A : Type) : Type := RunState → RunState * result A.

#[global] Instance run_m_ret : MRet run_m := fun A a rs => (rs, Return a).
#[global] Instance run_m_bind : MBind run_m := fun A B k m rs =>
  match m rs with
  | (rs', Return a) => k a rs'
  | (rs', Raise e) => (rs', Raise e)
  end.

(** An expression that does not touch the record. *)
Definition lift {A} (r : result A) : run_m A := fun rs => (rs, r).

(** An assignment to, or an append on, a field of the record. *)
Definition modify (f : RunState → RunState) : run_m unit :=
  fun rs => (f rs, Return tt).

(** ** The Execution Loop: [WorkflowEngine._execute] *)

(** Lines 91-149: one pass through the body of the [while], after the
    budget test.  It yields the merged local [state] and the next value of
    [current]. *)
Definition loop_body (spec : GraphSpec) (current : obj) (state : dict)
  : run_m (dict * obj) :=
  modify (set_current_node current);;
  let node_fn := table_get (nodes spec) current in
  modify (append_log ("running " +:+ to_str current));;
  '(new_state, node_res) ← lift (_call_node node_fn state);
  match nonempty (nr_log node_res) with
  | Some log => modify (append_log (to_str current +:+ ": " +:+ log))
  | None => mret tt
  end;;
  let state : dict := new_state ∪ state in
  modify (set_state state);;
  next_node ← lift (resolve (edges spec) current node_res state);
  modify (append_log (to_str current +:+ " -> next: " +:+ to_str next_node));;
  mret (state, next_node).

(** Lines 86-149: the [while] loop.  It ends when [current] is [None], when
    the step counter [visited] has reached [max_steps], or by an exception
    of the body.  The value returned is [visited] at the exit. *)
Equations while_loop (spec : GraphSpec) (max_steps visited : Z)
    (current : obj) (state : dict) (rs : RunState) : RunState * result Z
    by wf (Z.to_nat (max_steps - visited)) lt :=
  while_loop spec max_steps visited current state rs with is_none current => {
    | true => (rs, Return visited)
    | false with decide (max_steps ≤ visited)%Z => {
      | left _ => (append_log "max steps reached; aborting" rs, Return visited)
      | right _ with loop_body spec current state rs => {
        | (rs', Return (state', next_node)) =>
            while_loop spec max_steps (visited + 1) next_node state' rs'
        | (rs', Raise e) => (rs', Raise e) } } }.
Next Obligation. lia. Qed.

(** [spec.max_steps or 1000] *)
Definition max_steps_or_1000 (m : option Z) : Z :=
  match m with
  | Some z => if (z =? 0)%Z then 1000 else z
  | None => 1000
  end.

Definition _execute (spec : GraphSpec) : run_m unit := fun run_state =>
  let state := state run_state in
  let start := start_node spec in
  if String.eqb start "" then
    (run_state, Raise (ValueError "graph has no start_node"))
  else
    let max_steps := max_steps_or_1000 (max_steps spec) in
    match while_loop spec max_steps 0 (PyStr start) state run_state with
    | (rs, Return _) =>
        (set_current_node PyNone (set_finished true rs), Return tt)
    | (rs, Raise e) => (rs, Raise e)
    end.

(** ** The Engine: registries and [WorkflowEngine.run_graph] *)

(** The two registries of the engine, and the tasks handed to the event
    loop by [asyncio.create_task] that have not run yet: each holds the
    graph and the identifier of the Run Record it will drive. *)
Record Engine : Type := mkEngine {
  graphs : gmap string GraphSpec;
  runs : gmap string RunState;
  tasks : list (GraphSpec * string)
}.

(** [create_graph]; [uuid] is the identifier [uuid.uuid4()] draws. *)
Definition create_graph (eng : Engine) (spec : GraphSpec) (uuid : string)
  : Engine * string :=
  (mkEngine (<[uuid := spec]> (graphs eng)) (runs eng) (tasks eng), uuid).

(** Lines 60-65: [_runner] turns an exception of [_execute] into the
    [error] and [finished] fields of the record. *)
Definition _runner (spec : GraphSpec) (run_state : RunState) : RunState :=
  match _execute spec run_state with
  | (rs, Return _) => rs
  | (rs, Raise e) => set_finished true (set_error (Some (str_exn e)) rs)
  end.

(** Lines 49-57: the record of a run that has not started. *)
Definition new_run (run_id graph_id : string) (initial_state : dict) : RunState :=
  mkRunState run_id graph_id initial_state [] PyNone false None.

(** Lines 43-72.  In the foreground the runner has finished when the call
    returns; in the background it is only scheduled. *)
Definition run_graph (eng : Engine) (graph_id : string) (initial_state : dict)
    (run_in_background : bool) (uuid : string) : Engine * result string :=
  match graphs eng !! graph_id with
  | None => (eng, Raise (KeyError "graph not found"))
  | Some spec =>
      let run_id := uuid in
      let run_state := new_run run_id graph_id initial_state in
      if run_in_background then
        (mkEngine (graphs eng) (<[run_id := run_state]> (runs eng))
                  (tasks eng ++ [(spec, run_id)]),
         Return run_id)
      else
        (mkEngine (graphs eng) (<[run_id := _runner spec run_state]> (runs eng))
                  (tasks eng),
         Return run_id)
  end.

(** The event loop runs the oldest scheduled task to its end. *)
Definition run_task (eng : Engine) : Engine :=
  match tasks eng with
  | [] => eng
  | (spec, run_id) :: rest =>
      mkEngine (graphs eng) (alter (_runner spec) run_id (runs eng)) rest
  end.


(** ** The record in the middle of a step *)

(** The record after lines 91-93. *)
Definition entered (current : obj) (rs : RunState) : RunState :=
  append_log ("running " +:+ to_str current) (set_current_node current rs).

(** The record after lines 97-102. *)
Definition merged (current : obj) (node_res : NodeResult) (state' : dict)
    (rs : RunState) : RunState :=
  set_state state'
    match nonempty (nr_log node_res) with
    | Some log => append_log (to_str current +:+ ": " +:+ log) (entered current rs)
    | None => entered current rs
    end.

(** ** Runs, step by step *)

(** The variables of the loop at the top of an iteration. *)
Record config : Type := mkConfig {
  cfg_visited : Z;
  cfg_current : obj;
  cfg_state : dict;
  cfg_record : RunState
}.

Definition run_loop (spec : GraphSpec) (max_steps : Z) (cfg : config)
  : RunState * result Z :=
  while_loop spec max_steps (cfg_visited cfg) (cfg_current cfg)
             (cfg_state cfg) (cfg_record cfg).

(** [steps_to spec max_steps cfg cfg']: the loop, started in [cfg], comes
    to the top of an iteration in [cfg'] after some completed passes
    through its body. *)
Inductive steps_to (spec : GraphSpec) (max_steps : Z) : config → config → Prop :=
| steps_here cfg : steps_to spec max_steps cfg cfg
| steps_pass visited current st rs rs' st' next_node cfg' :
    is_none current = false →
    (visited < max_steps)%Z →
    loop_body spec current st rs = (rs', Return (st', next_node)) →
    steps_to spec max_steps (mkConfig (visited + 1) next_node st' rs') cfg' →
    steps_to spec max_steps (mkConfig visited current st rs) cfg'.

(** [node_yields node update log]: whatever the state, the call of [node]
    gives [update] to merge, the log line [log], and no next node. *)
Definition node_yields (node : node_fn) (update : dict) (log : string) : Prop :=
  ∀ st, ∃ node_res,
    _call_node (Some node) st = Return (update, node_res) ∧
    nonempty (nr_log node_res) = Some log ∧
    nonempty (nr_next_node node_res) = None.

(** A graph that never comes to an end on its own: from every pair of a
    current node and a state that [reachable] holds of, the node is
    defined, its call returns, and branch resolution yields a next node of
    which [reachable] holds again (so it is not [None]). *)
Definition runaway (spec : GraphSpec) (reachable : obj → dict → Prop) : Prop :=
  ∀ current st,
    reachable current st →
    is_none current = false ∧
    ∃ node new_state node_res next_node,
      table_get (nodes spec) current = Some node ∧
      _call_node (Some node) st = Return (new_state, node_res) ∧
      resolve (edges spec) current node_res (new_state ∪ st)
        = Return next_node ∧
      reachable next_node (new_state ∪ st).

(** ** Sample graphs and results *)

Module Examples.

(** A node result that forces the next node. *)
Definition jump_to_A : NodeResult :=
  mkNodeResult ∅ (Some "jumping") (Some "A").

(** The comparison descriptor of the comment on line 127, on ["score"]. *)
Definition score_at_least_80 : gmap string obj :=
  {[ "field" := PyStr "score"; "op" := PyStr ">=";
     "value" := OData (VInt 80); "true" := PyStr "done"; "false" := PyStr "retry" ]}.

Definition branching_edges : gmap string edge :=
  {[ "check" := EDict score_at_least_80; "retry" := EObj (PyStr "check") ]}.

(** An equality descriptor that compares the field with [None]. *)
Definition score_is_none : gmap string obj :=
  {[ "field" := PyStr "score"; "value" := PyNone;
     "true" := PyStr "done"; "false" := PyStr "retry" ]}.

Definition no_override : NodeResult := mkNodeResult ∅ (Some "checked") None.

(** A predicate that raises when its coroutine is awaited. *)
Definition boom_later : cond_fn :=
  fun _ => Return (Coroutine (Raise (OtherError "boom"))).

Definition gate : node_fn := NSync (fun _ => Return (Plain (RetDict ∅))).

Definition gated : GraphSpec :=
  mkGraphSpec {[ "gate" := gate ]}
    {[ "gate" := EDict {[ "cond" := OCallable "<lambda>" boom_later;
                          "true" := PyStr "yes"; "false" := PyStr "no" ]} ]}
    "gate" (Some 1000).



(** A node that loops back to itself for ever, with a budget of three
    steps, and the same graph with a budget of zero. *)
Definition spin : node_fn := NAsync (fun _ => Return (RetDict ∅)).

Definition spinning (budget : option Z) : GraphSpec :=
  mkGraphSpec {[ "spin" := spin ]} {[ "spin" := EObj (PyStr "spin") ]}
    "spin" budget.

Definition at_spin (current : obj) (st : dict) : Prop := current = PyStr "spin".

(** The two nodes of a straight-line graph: the first is a coroutine
    function that returns a [NodeResult], the second returns a bare
    [dict]. *)
Definition N1 : node_fn :=
  NAsync (fun _ => Return (RetResult
    (mkNodeResult {[ "x" := VInt 1 ]} (Some "set x") None))).
Definition N2 : node_fn :=
  NSync (fun _ => Return (Plain (RetDict {[ "x" := VInt 2 ]}))).

(** A graph whose only edge names a node that is not defined. *)
Definition dangling : GraphSpec :=
  mkGraphSpec {[ "first" := gate ]} {[ "first" := EObj (PyStr "ghost") ]}
    "first" (Some 1000%Z).

(** The record [run_graph] builds before it starts the loop. *)
Definition fresh_run (initial_state : dict) : RunState :=
  new_run "run-1" "graph-1" initial_state.

(** An engine with two graphs and one earlier run. *)
Definition engine : Engine :=
  mkEngine {[ "graph-1" := gated; "graph-2" := dangling ]}
           {[ "run-0" := fresh_run ∅ ]} [].

End Examples.

(** * Further definitions *)

(** What a run never writes, and what it only extends. *)
Definition same_run (rs rs' : RunState) : Prop :=
  run_id rs' = run_id rs ∧ graph_id rs' = graph_id rs ∧
  finished rs' = finished rs ∧ error rs' = error rs ∧
  ∃ more, logs rs' = (logs rs ++ more)%list.

(** Whether Python orders [a] against [b]: two numbers, or two strings. *)
Definition comparable (a b : obj) : bool :=
  match as_number a, as_number b with
  | Some _, Some _ => true
  | _, _ =>
      match as_str a, as_str b with
      | Some _, Some _ => true
      | _, _ => false
      end
  end.

(** ** Python strings

    A [str] is kept as the bytes of its UTF-8 encoding.  Searching for an
    ASCII pattern and splitting at line boundaries give the same answers
    on the bytes as on the code points, because the encoding of one code
    point never occurs inside the encoding of another. *)

(** [sub in s] *)
Fixpoint py_in (sub s : string) : bool :=
  String.prefix sub s ||
  match s with
  | EmptyString => false
  | String _ rest => py_in sub rest
  end.

(** The scan of [s.count(sub)] for a non-empty [sub]: occurrences are
    counted from the left and do not overlap, so after a match the next
    [length sub - 1] positions are skipped. *)
Fixpoint count_from (sub : string) (skip : nat) (s : string) : nat :=
  match s with
  | EmptyString => 0
  | String _ rest =>
      match skip with
      | S skip' => count_from sub skip' rest
      | O =>
          if String.prefix sub s
          then S (count_from sub (String.length sub - 1) rest)
          else count_from sub 0 rest
      end
  end.

(** [s.count(sub)]; the empty pattern occurs between all characters. *)
Definition str_count (s sub : string) : Z :=
  if String.eqb sub "" then Z.of_nat (String.length s) + 1
  else Z.of_nat (count_from sub 0 s).

(** The one-byte line boundaries other than LF and CR: VT, FF, FS, GS, RS. *)
Definition single_byte_break (c : ascii) : bool :=
  Ascii.eqb c "011" || Ascii.eqb c "012" || Ascii.eqb c "028" ||
  Ascii.eqb c "029" || Ascii.eqb c "030".

(** [s.splitlines()], with [line] the characters of the line being read
    and [after_cr] set right after a CR (a LF that follows belongs to the
    same boundary).  The boundaries are LF, CR, CR LF, VT, FF, FS, GS, RS,
    U+0085 (bytes 194 133), U+2028 and U+2029 (bytes 226 128 168 and
    226 128 169).  A last line is listed only when it is not empty. *)
Fixpoint splitlines_from (s line : string) (after_cr : bool) : list string :=
  match s with
  | EmptyString => if String.eqb line "" then [] else [line]
  | String c rest =>
      if Ascii.eqb c "010" then
        if after_cr then splitlines_from rest "" false
        else line :: splitlines_from rest "" false
      else if Ascii.eqb c "013" then line :: splitlines_from rest "" true
      else if single_byte_break c then line :: splitlines_from rest "" false
      else
        match rest with
        | String c1 rest1 =>
            if Ascii.eqb c "194" && Ascii.eqb c1 "133" then
              line :: splitlines_from rest1 "" false
            else
              match rest1 with
              | String c2 rest2 =>
                  if Ascii.eqb c "226" && Ascii.eqb c1 "128" &&
                     (Ascii.eqb c2 "168" || Ascii.eqb c2 "169")
                  then line :: splitlines_from rest2 "" false
                  else splitlines_from rest (line +:+ String c "") false
              | EmptyString => splitlines_from rest (line +:+ String c "") false
              end
        | EmptyString => splitlines_from rest (line +:+ String c "") false
        end
  end.

Definition splitlines (s : string) : list string := splitlines_from s "" false.

(** ** The tools: app/tools.py *)

(** [detect_smells] *)
Definition detect_smells (code : string) : gmap string Z :=
  let issues := 0%Z in
  let issues := if py_in "TODO" code then (issues + 1)%Z else issues in
  let issues := if py_in "print(" code then (issues + 1)%Z else issues in
  let issues :=
    if (200 <? length (splitlines code))%nat then (issues + 2)%Z else issues in
  {[ "issues" := issues ]}.

(** The keywords [compute_complexity] counts. *)
Definition branch_keywords : list string :=
  ["if "; "for "; "while "; "try:"; "except"].

(** [compute_complexity] *)
Definition compute_complexity (func_code : string) : gmap string Z :=
  let score :=
    fold_left (fun score kw => (score + str_count func_code kw)%Z)
              branch_keywords 1%Z in
  {[ "complexity" := score ]}.

(** ** A workflow node: [check_done] of app/workflows/code_review.py *)

(** [state.get(key, fallback)] *)
Definition get_or (st : dict) (key : string) (fallback : value) : value :=
  default fallback (st !! key).

(** The two results of [check_done]. *)
Definition good_enough (quality threshold : value) : NodeResult :=
  mkNodeResult ∅
    (Some ("quality " +:+ to_str (OData quality) +:+ " >= threshold "
           +:+ to_str (OData threshold)))
    None.

Definition try_again (quality threshold : value) : NodeResult :=
  mkNodeResult ∅
    (Some ("quality " +:+ to_str (OData quality) +:+ " < threshold "
           +:+ to_str (OData threshold) +:+ "; looping"))
    (Some "check_complexity").

(** [check_done]: a coroutine function that compares the quality with the
    threshold and asks for another round through its [next_node]. *)
Definition check_done_body (st : dict) : result node_ret :=
  let threshold := get_or st "threshold" (VInt 80) in
  let quality := get_or st "quality_score" (VInt 0) in
  passed ← py_ge (OData quality) (OData threshold);
  if passed : bool then Return (RetResult (good_enough quality threshold))
  else Return (RetResult (try_again quality threshold)).

Definition check_done : node_fn := NAsync check_done_body.


(** ** The request handlers of app/main.py that drive the engine *)

(** What a handler hands back to the web framework: its return value, an
    [HTTPException] it raised, or another exception that escaped it. *)
Inductive http_result (A : Type) : Type :=
| Ok (body : A)
| HTTPException (status_code : Z) (detail : string)
| Escaped (e : exn).
Arguments Ok {A} body.
Arguments HTTPException {A} status_code detail.
Arguments Escaped {A} e.

(** The dictionary returned by the handler of [POST /graph/run]. *)
Record RunReply : Type := mkRunReply {
  reply_run_id : string;
  reply_state : dict;
  reply_logs : list string;
  reply_finished : bool
}.

(** The dictionary returned by the handler of [GET /graph/state/{run_id}]. *)
Record StateReply : Type := mkStateReply {
  sr_run_id : string;
  sr_state : dict;
  sr_logs : list string;
  sr_current_node : obj;
  sr_finished : bool;
  sr_error : option string
}.

Module Main.

(** [run_graph] of app/main.py.  [run_in_background] is the optional field
    of the payload: the engine tests it for truth, so [None] means the
    foreground.  The reply is read off the record when the handler
    returns. *)
Definition run_graph (eng : Engine) (graph_id : string) (initial_state : dict)
    (run_in_background : option bool) (uuid : string)
  : Engine * http_result RunReply :=
  match run_graph eng graph_id initial_state
                  (default false run_in_background) uuid with
  | (eng', Raise (KeyError _)) => (eng', HTTPException 404 "graph not found")
  | (eng', Raise e) => (eng', Escaped e)
  | (eng', Return run_id) =>
      match runs eng' !! run_id with
      | Some run =>
          (eng', Ok (mkRunReply run_id (state run) (logs run) (finished run)))
      | None => (eng', Escaped (KeyError run_id))
      end
  end.

(** [get_run_state] of app/main.py. *)
Definition get_run_state (eng : Engine) (run_id : string)
  : http_result StateReply :=
  match runs eng !! run_id with
  | None => HTTPException 404 "run not found"
  | Some run =>
      Ok (mkStateReply run_id (state run) (logs run) (current_node run)
                       (finished run) (error run))
  end.

End Main.

(** ** More sample graphs *)

Module MoreExamples.

(** The graph [Examples.dangling] with its missing node defined: a node
    that itself calls [None]. *)
Definition calls_none : node_fn := NSync (fun _ => Raise none_not_callable).

Definition haunted : GraphSpec :=
  mkGraphSpec {[ "first" := Examples.gate; "ghost" := calls_none ]}
              {[ "first" := EObj (PyStr "ghost") ]} "first" (Some 1000%Z).

(** A graph without a start node. *)
Definition nameless : GraphSpec :=
  mkGraphSpec {[ "only" := Examples.gate ]} ∅ "" (Some 1000%Z).

Definition engine : Engine :=
  mkEngine {[ "nameless" := nameless ]} ∅ [].



(** The straight-line graph N1 -> N2 with a budget of five steps. *)
Definition straight : GraphSpec :=
  mkGraphSpec {[ "N1" := Examples.N1; "N2" := Examples.N2 ]}
              {[ "N1" := EObj (PyStr "N2") ]} "N1" (Some 5%Z).

(** A descriptor with an operator the engine does not know. *)
Definition score_differs_from_80 : gmap string obj :=
  {[ "field" := PyStr "score"; "op" := PyStr "!=";
     "value" := OData (VInt 80); "true" := PyStr "done"; "false" := PyStr "retry" ]}.

(** A node that stores a score of the wrong type, checked by the
    descriptor ["score" >= 80]. *)
Definition grade : node_fn :=
  NAsync (fun _ => Return (RetResult
    (mkNodeResult {[ "score" := VStr "high" ]} (Some "graded") None))).

Definition graded : GraphSpec :=
  mkGraphSpec {[ "grade" := grade ]}
              {[ "grade" := EDict Examples.score_at_least_80 ]} "grade" None.

(** A review graph: a node that leaves the scores alone, then
    [check_done]. *)
Definition recheck : node_fn :=
  NAsync (fun _ => Return (RetResult
    (mkNodeResult ∅ (Some "computed complexity") None))).

Definition review (budget : option Z) : GraphSpec :=
  mkGraphSpec {[ "check_complexity" := recheck; "check_done" := check_done ]}
              {[ "check_complexity" := EObj (PyStr "check_done") ]}
              "check_complexity" budget.

End MoreExamples.

(** * Properties *)

(** ** The loop, one test at a time *)

Lemma while_loop_eq spec max_steps visited current state rs :
  while_loop spec max_steps visited current state rs =
  if is_none current then (rs, Return visited)
  else if decide (max_steps ≤ visited)%Z then
    (append_log "max steps reached; aborting" rs, Return visited)
  else
    match loop_body spec current state rs with
    | (rs', Return (state', next_node)) =>
        while_loop spec max_steps (visited + 1) next_node state' rs'
    | (rs', Raise e) => (rs', Raise e)
    end.
Proof.
  simp while_loop.
  destruct (is_none current); simpl; [reflexivity|].
  destruct (decide (max_steps ≤ visited)%Z); simpl; [reflexivity|].
  destruct (loop_body spec current state rs) as [rs' [[state' next_node]|e]];
    reflexivity.
Qed.

(** ** The body of the loop, spelled out *)

Lemma loop_body_eq spec current state rs :
  loop_body spec current state rs =
  match _call_node (table_get (nodes spec) current) state with
  | Raise e => (entered current rs, Raise e)
  | Return (new_state, node_res) =>
      let state' : dict := new_state ∪ state in
      match resolve (edges spec) current node_res state' with
      | Raise e => (merged current node_res state' rs, Raise e)
      | Return next_node =>
          (append_log (to_str current +:+ " -> next: " +:+ to_str next_node)
                      (merged current node_res state' rs),
           Return (state', next_node))
      end
  end.
Proof.
  unfold loop_body, merged, entered, mbind, run_m_bind, modify, lift, mret, run_m_ret.
  destruct (_call_node _ state) as [[new_state node_res]|e]; [|reflexivity].
  cbn -[append].
  destruct (nonempty (nr_log node_res));
    destruct (resolve _ current node_res _); reflexivity.
Qed.

(** The body only appends to [logs], and writes [state] and
    [current_node]: the other fields of the record are left alone. *)
Lemma loop_body_frame spec current state rs rs' r :
  loop_body spec current state rs = (rs', r) →
  run_id rs' = run_id rs ∧ graph_id rs' = graph_id rs ∧
  finished rs' = finished rs ∧ error rs' = error rs ∧
  current_node rs' = current ∧
  ∃ more, logs rs' = (logs rs ++ ("running " +:+ to_str current) :: more)%list.
Proof.
  rewrite loop_body_eq.
  destruct (_call_node _ state) as [[new_state node_res]|e].
  - cbn zeta. unfold merged.
    destruct (resolve _ current node_res _);
      destruct (nonempty (nr_log node_res));
      intros [= <- <-]; cbn; repeat split; try reflexivity;
      rewrite <- ?app_assoc; eexists; reflexivity.
  - intros [= <- <-]. cbn. repeat split; try reflexivity.
    exists []. reflexivity.
Qed.

(** Unfold the loop once at a node that the budget still allows. *)
Ltac enter_pass :=
  rewrite while_loop_eq; cbn [is_none];
  match goal with
  | |- context [decide (?m ≤ ?v)%Z] => destruct (decide (m ≤ v)%Z); [lia|]
  end;
  rewrite loop_body_eq; cbn [nodes edges].

(** ** Branch resolution *)

(** C1: when the node result carries a non-empty [next_node], branch
    resolution returns that name, whatever the edge table holds for the
    current node. *)
Theorem override_beats_edge_table edges current node_res state next :
  nr_next_node node_res = Some next →
  next ≠ "" →
  resolve edges current node_res state = Return (PyStr next).
Proof.
  intros Hnext Hne. unfold resolve, nonempty. rewrite Hnext.
  destruct (String.eqb_spec next ""); [contradiction|reflexivity].
Qed.

Lemma override_beats_edge_table_witness :
  resolve Examples.branching_edges (PyStr "check") Examples.jump_to_A
          {[ "score" := VInt 90 ]}
  = Return (PyStr "A").
Proof.
  apply (override_beats_edge_table Examples.branching_edges (PyStr "check")
           Examples.jump_to_A {[ "score" := VInt 90 ]} "A").
  - reflexivity.
  - discriminate.
Defined.

(** C6: when the predicate of a predicate-branch descriptor raises, at the
    call or while its coroutine is awaited, branch resolution returns the
    descriptor's ["false"] target; the step completes and the [error] field
    of the record is not written. *)
Theorem failing_predicate_selects_false
    spec current state rs new_state node_res d repr cond e :
  _call_node (table_get (nodes spec) current) state
    = Return (new_state, node_res) →
  nonempty (nr_next_node node_res) = None →
  table_get (edges spec) current = Some (EDict d) →
  d !! "cond" = Some (OCallable repr cond) →
  (cond (new_state ∪ state) = Raise e ∨
   cond (new_state ∪ state) = Return (Coroutine (Raise e))) →
  resolve (edges spec) current node_res (new_state ∪ state)
    = Return (dict_get d "false") ∧
  ∃ rs', loop_body spec current state rs
           = (rs', Return (new_state ∪ state, dict_get d "false")) ∧
         error rs' = error rs.
Proof.
  intros Hcall Hover Hedge Hcond Hraise.
  assert (Hres : resolve (edges spec) current node_res (new_state ∪ state)
                 = Return (dict_get d "false")).
  { unfold resolve, edge_branch, eval_cond.
    rewrite Hover, Hedge, Hcond.
    destruct Hraise as [-> | ->]; reflexivity. }
  split; [exact Hres|].
  eexists. split.
  - rewrite loop_body_eq, Hcall. cbn zeta. rewrite Hres. reflexivity.
  - unfold merged. destruct (nonempty (nr_log node_res)); reflexivity.
Qed.

Lemma failing_predicate_selects_false_witness :
  resolve (edges Examples.gated) (PyStr "gate")
          (mkNodeResult ∅ (Some "node returned dict") None) (∅ ∪ ∅)
    = Return (PyStr "no") ∧
  ∃ rs', loop_body Examples.gated (PyStr "gate") ∅ (Examples.fresh_run ∅)
           = (rs', Return (∅ ∪ ∅, PyStr "no")) ∧
         error rs' = None.
Proof.
  exact (failing_predicate_selects_false Examples.gated (PyStr "gate") ∅
           (Examples.fresh_run ∅) ∅
           (mkNodeResult ∅ (Some "node returned dict") None)
           {[ "cond" := OCallable "<lambda>" Examples.boom_later;
              "true" := PyStr "yes"; "false" := PyStr "no" ]}
           "<lambda>" Examples.boom_later (OtherError "boom")
           eq_refl eq_refl eq_refl eq_refl (or_intror eq_refl)).
Defined.

(** A comparison descriptor under the current node, and a node result that
    leaves the choice to it. *)
Section FieldComparison.
Variables (edges : gmap string edge) (current : obj) (node_res : NodeResult).
Variables (state : dict) (d : gmap string obj).
Hypothesis no_override : nonempty (nr_next_node node_res) = None.
Hypothesis descriptor : table_get edges current = Some (EDict d).
Hypothesis no_predicate : ∀ repr f, d !! "cond" ≠ Some (OCallable repr f).

Lemma resolve_field_branch :
  resolve edges current node_res state = field_branch d state.
Proof.
  unfold resolve, edge_branch. rewrite no_override, descriptor.
  destruct (d !! "cond") as [[v|repr f]|] eqn:Hcond; try reflexivity.
  exfalso. apply (no_predicate repr f). reflexivity.
Qed.

(** C2, as the code has it: with the key of a comparison descriptor
    absent from the state, branch resolution returns without raising and
    selects the ["false"] target for each of [>=], [<=], [>], [<] with any
    comparison value, and for the equality default with any comparison
    value other than [None].  For ["score" >= 80]: a score of 80 selects
    the ["true"] target, a score of 79 or a missing score the ["false"]
    target. *)
Theorem absent_field_selects_false :
  (∀ key,
     d !! "field" = Some (PyStr key) →
     state !! key = None →
     ordering_op (default (PyStr "==") (d !! "op")) = true ∨
       dict_get d "value" ≠ PyNone →
     resolve edges current node_res state = Return (dict_get d "false")) ∧
  (d !! "field" = Some (PyStr "score") →
   d !! "op" = Some (PyStr ">=") →
   d !! "value" = Some (OData (VInt 80)) →
   (state !! "score" = Some (VInt 80) →
    resolve edges current node_res state = Return (dict_get d "true")) ∧
   (state !! "score" = Some (VInt 79) →
    resolve edges current node_res state = Return (dict_get d "false")) ∧
   (state !! "score" = None →
    resolve edges current node_res state = Return (dict_get d "false"))).
Proof.
  split.
  - intros key Hfield Habsent Hop.
    rewrite resolve_field_branch. unfold field_branch, ordering_op in *.
    rewrite Hfield. cbn [state_get]. rewrite Habsent. cbn [default].
    destruct (py_eq _ (PyStr ">=")); [reflexivity|].
    destruct (py_eq _ (PyStr "<=")); [reflexivity|].
    destruct (py_eq _ (PyStr ">")); [reflexivity|].
    destruct (py_eq _ (PyStr "<")); [reflexivity|].
    destruct Hop as [Hop|Hval]; [discriminate|].
    destruct (dict_get d "value") as [[| | |]|]; try reflexivity.
    contradiction.
  - intros Hfield Hop Hval.
    rewrite resolve_field_branch. unfold field_branch, dict_get.
    rewrite Hfield, Hop, Hval. cbn [state_get default].
    repeat split; intros ->; reflexivity.
Qed.
End FieldComparison.

Lemma absent_field_selects_false_witness :
  resolve Examples.branching_edges (PyStr "check") Examples.no_override ∅
    = Return (PyStr "retry") ∧
  resolve Examples.branching_edges (PyStr "check") Examples.no_override
          {[ "score" := VInt 80 ]}
    = Return (PyStr "done") ∧
  resolve Examples.branching_edges (PyStr "check") Examples.no_override
          {[ "score" := VInt 79 ]}
    = Return (PyStr "retry").
Proof.
  pose proof (fun state =>
    absent_field_selects_false Examples.branching_edges
      (PyStr "check") Examples.no_override state Examples.score_at_least_80
      ltac:(reflexivity) ltac:(reflexivity)
      ltac:(intros repr f; vm_compute; discriminate)) as H.
  split; [|split].
  - apply (proj1 (H ∅) "score").
    + reflexivity.
    + reflexivity.
    + left. reflexivity.
  - exact (proj1 (proj2 (H {[ "score" := VInt 80 ]}) eq_refl eq_refl eq_refl)
                  eq_refl).
  - exact (proj1 (proj2 (proj2 (H {[ "score" := VInt 79 ]})
                           eq_refl eq_refl eq_refl))
                  eq_refl).
Defined.

(** C2 as stated fails: the equality default with comparison value [None]
    and the key absent from the state selects the ["true"] target. *)
Lemma absent_field_equal_to_none_selects_true :
  Examples.score_is_none !! "field" = Some (PyStr "score") ∧
  (∅ : dict) !! "score" = None ∧
  resolve {[ "check" := EDict Examples.score_is_none ]} (PyStr "check")
          Examples.no_override ∅
    = Return (dict_get Examples.score_is_none "true") ∧
  resolve {[ "check" := EDict Examples.score_is_none ]} (PyStr "check")
          Examples.no_override ∅
    ≠ Return (dict_get Examples.score_is_none "false").
Proof.
  repeat split; try reflexivity.
  vm_compute. discriminate.
Qed.

(** ** The Invocation Adapter *)

Section UnexpectedResult.
Variables (node : node_fn) (st : dict) (v : value).
Hypothesis unexpected : invoke_node (Some node) st = Return (RetOther v).

End UnexpectedResult.



(** ** The Engine *)

(** C5: for a graph identifier that is not in the graph registry,
    [run_graph] raises [KeyError("graph not found")] and leaves the engine,
    its run registry included, exactly as it was: no Run Record is built
    or registered, in the foreground or in the background. *)
Theorem unknown_graph_registers_nothing
    eng graph_id initial_state run_in_background uuid :
  graphs eng !! graph_id = None →
  run_graph eng graph_id initial_state run_in_background uuid
    = (eng, Raise (KeyError "graph not found")).
Proof.
  intros Hnone. unfold run_graph. rewrite Hnone. reflexivity.
Qed.

Lemma unknown_graph_registers_nothing_witness :
  run_graph Examples.engine "no-such-graph" ∅ false "run-2"
    = (Examples.engine, Raise (KeyError "graph not found")).
Proof.
  apply (unknown_graph_registers_nothing Examples.engine "no-such-graph" ∅
           false "run-2").
  reflexivity.
Defined.

(** ** The Execution Loop *)

Lemma steps_to_run_loop spec max_steps cfg cfg' :
  steps_to spec max_steps cfg cfg' →
  run_loop spec max_steps cfg = run_loop spec max_steps cfg'.
Proof.
  induction 1 as [cfg|visited current st rs rs' st' next_node cfg'
                    Hcur Hlt Hbody _ IH]; [reflexivity|].
  rewrite <- IH. unfold run_loop. cbn.
  rewrite (while_loop_eq spec max_steps visited), Hcur, Hbody.
  destruct (decide (max_steps ≤ visited)%Z); [lia|reflexivity].
Qed.

Lemma runaway_body spec reachable current st rs :
  runaway spec reachable →
  reachable current st →
  is_none current = false ∧
  ∃ rs' st' next_node,
    loop_body spec current st rs = (rs', Return (st', next_node)) ∧
    reachable next_node st'.
Proof.
  intros Hrun Hreach.
  destruct (Hrun current st Hreach)
    as (Hcur & node & new_state & node_res & next_node & Hnode & Hcall & Hres & Hnext).
  split; [exact Hcur|].
  eexists _, _, _. split; [|exact Hnext].
  rewrite loop_body_eq, Hnode, Hcall. cbn zeta. rewrite Hres. reflexivity.
Qed.

(** A runaway graph completes one pass after the other until [visited]
    equals [max_steps]. *)
Lemma runaway_steps spec reachable max_steps :
  runaway spec reachable →
  ∀ (n : nat) visited current st rs,
    Z.to_nat (max_steps - visited) = n →
    (visited ≤ max_steps)%Z →
    reachable current st →
    ∃ cfg,
      steps_to spec max_steps (mkConfig visited current st rs) cfg ∧
      cfg_visited cfg = max_steps ∧
      reachable (cfg_current cfg) (cfg_state cfg) ∧
      finished (cfg_record cfg) = finished rs ∧
      error (cfg_record cfg) = error rs.
Proof.
  intros Hrun n.
  induction n as [|n IH]; intros visited current st rs Hn Hle Hreach.
  - exists (mkConfig visited current st rs). cbn.
    split; [apply steps_here|]. repeat split; [lia|exact Hreach].
  - destruct (runaway_body spec reachable current st rs Hrun Hreach)
      as (Hcur & rs1 & st1 & next_node & Hbody & Hnext).
    destruct (IH (visited + 1)%Z next_node st1 rs1)
      as (cfg & Hsteps & Hvisited & Hcfg & Hfin & Herr);
      [lia|lia|exact Hnext|].
    exists cfg. split.
    + apply (steps_pass spec max_steps visited current st rs rs1 st1 next_node);
        [exact Hcur|lia|exact Hbody|exact Hsteps].
    + apply loop_body_frame in Hbody as (_ & _ & Hfin1 & Herr1 & _).
      repeat split; [exact Hvisited|exact Hcfg|congruence|congruence].
Qed.

(** With the budget used up and a node still to run, the loop logs the
    abort entry and is left. *)
Lemma budget_used_up spec max_steps cfg :
  cfg_visited cfg = max_steps →
  is_none (cfg_current cfg) = false →
  run_loop spec max_steps cfg
    = (append_log "max steps reached; aborting" (cfg_record cfg),
       Return max_steps).
Proof.
  intros Hvisited Hcur. unfold run_loop.
  rewrite while_loop_eq, Hcur, Hvisited.
  destruct (decide (max_steps ≤ max_steps)%Z); [reflexivity|lia].
Qed.

Lemma runaway_execute spec reachable rs :
  runaway spec reachable →
  start_node spec ≠ "" →
  reachable (PyStr (start_node spec)) (state rs) →
  (0 ≤ max_steps_or_1000 (max_steps spec))%Z →
  ∃ cfg,
    steps_to spec (max_steps_or_1000 (max_steps spec))
      (mkConfig 0 (PyStr (start_node spec)) (state rs) rs) cfg ∧
    cfg_visited cfg = max_steps_or_1000 (max_steps spec) ∧
    _execute spec rs
      = (set_current_node PyNone
           (set_finished true
              (append_log "max steps reached; aborting" (cfg_record cfg))),
         Return tt) ∧
    error (cfg_record cfg) = error rs.
Proof.
  intros Hrun Hstart Hreach Hpos.
  destruct (runaway_steps spec reachable _ Hrun _ 0%Z _ _ rs eq_refl Hpos Hreach)
    as (cfg & Hsteps & Hvisited & Hcfg & _ & Herr).
  exists cfg. split; [exact Hsteps|]. split; [exact Hvisited|].
  split; [|exact Herr].
  unfold _execute.
  destruct (String.eqb_spec (start_node spec) ""); [contradiction|].
  apply steps_to_run_loop in Hsteps. unfold run_loop at 1 in Hsteps.
  cbn in Hsteps. rewrite Hsteps, (budget_used_up _ _ _ Hvisited); [reflexivity|].
  apply (Hrun _ _ Hcfg).
Qed.

(** C3: in a graph where every reachable node is defined and returns, and
    branch resolution never yields [None], the loop completes exactly
    [max_steps] passes through its body ([visited] goes from 0 to the
    budget, one pass at a time); the run then appends the abort entry and
    ends with [finished] set and no [error]. *)
Theorem runaway_stops_at_budget spec reachable rs budget :
  runaway spec reachable →
  start_node spec ≠ "" →
  reachable (PyStr (start_node spec)) (state rs) →
  max_steps spec = Some budget →
  (0 < budget)%Z →
  error rs = None →
  ∃ cfg,
    steps_to spec budget
      (mkConfig 0 (PyStr (start_node spec)) (state rs) rs) cfg ∧
    cfg_visited cfg = budget ∧
    logs (_runner spec rs)
      = (logs (cfg_record cfg) ++ ["max steps reached; aborting"])%list ∧
    finished (_runner spec rs) = true ∧
    error (_runner spec rs) = None.
Proof.
  intros Hrun Hstart Hreach Hbudget Hpos Herr.
  assert (Hmax : max_steps_or_1000 (max_steps spec) = budget).
  { rewrite Hbudget. cbn. destruct (Z.eqb_spec budget 0); [lia|reflexivity]. }
  destruct (runaway_execute spec reachable rs Hrun Hstart Hreach)
    as (cfg & Hsteps & Hvisited & Hexec & Herr'); [lia|].
  rewrite Hmax in Hsteps, Hvisited.
  exists cfg. split; [exact Hsteps|]. split; [exact Hvisited|].
  unfold _runner. rewrite Hexec. cbn.
  repeat split. congruence.
Qed.

Lemma spinning_runaway budget : runaway (Examples.spinning budget) Examples.at_spin.
Proof.
  intros current st Hcur. unfold Examples.at_spin in Hcur. subst current.
  split; [reflexivity|].
  exists Examples.spin, ∅, (mkNodeResult ∅ (Some "node returned dict") None),
         (PyStr "spin").
  repeat split.
Qed.

Lemma runaway_stops_at_budget_witness :
  ∃ cfg,
    steps_to (Examples.spinning (Some 3%Z)) 3
      (mkConfig 0 (PyStr "spin") ∅ (Examples.fresh_run ∅)) cfg ∧
    cfg_visited cfg = 3%Z ∧
    logs (_runner (Examples.spinning (Some 3%Z)) (Examples.fresh_run ∅))
      = (logs (cfg_record cfg) ++ ["max steps reached; aborting"])%list ∧
    finished (_runner (Examples.spinning (Some 3%Z)) (Examples.fresh_run ∅))
      = true ∧
    error (_runner (Examples.spinning (Some 3%Z)) (Examples.fresh_run ∅)) = None.
Proof.
  apply (runaway_stops_at_budget (Examples.spinning (Some 3%Z)) Examples.at_spin
           (Examples.fresh_run ∅) 3).
  - apply spinning_runaway.
  - discriminate.
  - reflexivity.
  - reflexivity.
  - lia.
  - reflexivity.
Defined.

(** The loop reads the graph only through [nodes] and [edges]. *)
Lemma while_loop_same_tables spec spec' max_steps :
  nodes spec = nodes spec' →
  edges spec = edges spec' →
  ∀ (n : nat) visited current st rs,
    Z.to_nat (max_steps - visited) = n →
    while_loop spec max_steps visited current st rs
      = while_loop spec' max_steps visited current st rs.
Proof.
  intros Hnodes Hedges.
  assert (Hbody : ∀ current st rs,
            loop_body spec current st rs = loop_body spec' current st rs).
  { intros. rewrite !loop_body_eq, Hnodes, Hedges. reflexivity. }
  induction n as [|n IH]; intros visited current st rs Hn;
    rewrite (while_loop_eq spec), (while_loop_eq spec'), Hbody;
    destruct (is_none current); try reflexivity;
    destruct (decide (max_steps ≤ visited)%Z); try reflexivity; [lia|].
  destruct (loop_body spec' current st rs) as [rs' [[st' next_node]|e]];
    [|reflexivity].
  apply IH. lia.
Qed.

(** The loop only appends to the log. *)
Lemma while_loop_appends spec max_steps :
  ∀ (n : nat) visited current st rs,
    Z.to_nat (max_steps - visited) = n →
    ∃ more,
      logs (fst (while_loop spec max_steps visited current st rs))
        = (logs rs ++ more)%list.
Proof.
  induction n as [|n IH]; intros visited current st rs Hn;
    rewrite while_loop_eq;
    (destruct (is_none current); [exists []; cbn; by rewrite app_nil_r|]);
    (destruct (decide (max_steps ≤ visited)%Z); [eexists; reflexivity|]);
    [lia|].
  destruct (loop_body spec current st rs) as [rs' [[st' next_node]|e]] eqn:Hbody;
    apply loop_body_frame in Hbody as (_ & _ & _ & _ & _ & more & Hlogs).
  - destruct (IH (visited + 1)%Z next_node st' rs') as [more' Hmore]; [lia|].
    rewrite Hmore, Hlogs, <- app_assoc. eexists; reflexivity.
  - cbn. rewrite Hlogs. eexists; reflexivity.
Qed.

(** C10: a graph whose [max_steps] is [0] or [None] runs as the same graph
    with [max_steps = 1000] does.  The budget test does not stop it before
    the first step (the entry "running <start>" is logged), and a runaway
    graph is stopped after exactly 1000 completed passes through the
    body. *)
Theorem zero_budget_means_1000 spec reachable rs :
  max_steps spec = None ∨ max_steps spec = Some 0%Z →
  _execute spec rs
    = _execute (mkGraphSpec (nodes spec) (edges spec) (start_node spec)
                            (Some 1000%Z)) rs ∧
  (start_node spec ≠ "" →
   ∃ more, logs (fst (_execute spec rs))
           = (logs rs ++ ("running " +:+ start_node spec) :: more)%list) ∧
  (runaway spec reachable →
   start_node spec ≠ "" →
   reachable (PyStr (start_node spec)) (state rs) →
   ∃ cfg,
     steps_to spec 1000 (mkConfig 0 (PyStr (start_node spec)) (state rs) rs) cfg ∧
     cfg_visited cfg = 1000%Z ∧
     logs (fst (_execute spec rs))
       = (logs (cfg_record cfg) ++ ["max steps reached; aborting"])%list).
Proof.
  intros Hbudget.
  assert (Hmax : max_steps_or_1000 (max_steps spec) = 1000%Z)
    by (destruct Hbudget as [-> | ->]; reflexivity).
  split; [|split].
  - unfold _execute. cbn [start_node max_steps]. rewrite Hmax.
    change (max_steps_or_1000 (Some 1000%Z)) with 1000%Z.
    destruct (String.eqb (start_node spec) ""); [reflexivity|].
    rewrite (while_loop_same_tables spec
               (mkGraphSpec (nodes spec) (edges spec) (start_node spec)
                            (Some 1000%Z)) 1000 eq_refl eq_refl 1000%nat);
      reflexivity.
  - intros Hstart. unfold _execute. rewrite Hmax.
    destruct (String.eqb_spec (start_node spec) ""); [contradiction|].
    rewrite while_loop_eq. cbn [is_none].
    destruct (decide (1000 ≤ 0)%Z); [lia|].
    destruct (loop_body spec _ (state rs) rs) as [rs1 [[st1 next_node]|e]] eqn:Hbody;
      apply loop_body_frame in Hbody as (_ & _ & _ & _ & _ & more & Hlogs).
    + destruct (while_loop_appends spec 1000 _ (0 + 1)%Z next_node st1 rs1 eq_refl)
        as [more' Hmore].
      destruct (while_loop spec 1000 (0 + 1) next_node st1 rs1) as [rs2 [count|e]];
        cbn in Hmore |- *; rewrite Hmore, Hlogs, <- app_assoc;
        eexists; reflexivity.
    + cbn. rewrite Hlogs. eexists; reflexivity.
  - intros Hrun Hstart Hreach.
    destruct (runaway_execute spec reachable rs Hrun Hstart Hreach)
      as (cfg & Hsteps & Hvisited & Hexec & _); [lia|].
    rewrite Hmax in Hsteps, Hvisited.
    exists cfg. rewrite Hexec. repeat split; assumption.
Qed.

Lemma zero_budget_means_1000_witness :
  _execute (Examples.spinning (Some 0%Z)) (Examples.fresh_run ∅)
    = _execute (Examples.spinning (Some 1000%Z)) (Examples.fresh_run ∅) ∧
  ∃ cfg,
    steps_to (Examples.spinning (Some 0%Z)) 1000
      (mkConfig 0 (PyStr "spin") ∅ (Examples.fresh_run ∅)) cfg ∧
    cfg_visited cfg = 1000%Z ∧
    logs (fst (_execute (Examples.spinning (Some 0%Z)) (Examples.fresh_run ∅)))
      = (logs (cfg_record cfg) ++ ["max steps reached; aborting"])%list.
Proof.
  pose proof (zero_budget_means_1000 (Examples.spinning (Some 0%Z))
                Examples.at_spin (Examples.fresh_run ∅)
                (or_intror eq_refl)) as (Hsame & _ & Hsteps).
  split; [exact Hsame|].
  apply Hsteps.
  - apply spinning_runaway.
  - discriminate.
  - reflexivity.
Defined.

(** C4, as the code has it: the engine has no test for a missing node.
    When the loop comes to run a node whose name is not a key of [nodes],
    the call of [None] raises [TypeError]; the run ends with [finished] set
    and [error] holding the text of that exception,
    "'NoneType' object is not callable", which does not name the node; the
    entry "running <name>" is the last of its log, [run_graph] returns the
    run identifier to its caller, and no other entry of the run registry
    changes.  A background run whose task then runs ends in the same
    record. *)
Theorem missing_node_fails_only_its_run
    eng graph_id spec initial_state uuid visited name st rs :
  graphs eng !! graph_id = Some spec →
  start_node spec ≠ "" →
  steps_to spec (max_steps_or_1000 (max_steps spec))
    (mkConfig 0 (PyStr (start_node spec)) initial_state
              (new_run uuid graph_id initial_state))
    (mkConfig visited (PyStr name) st rs) →
  (visited < max_steps_or_1000 (max_steps spec))%Z →
  nodes spec !! name = None →
  ∃ final,
    _runner spec (new_run uuid graph_id initial_state) = final ∧
    finished final = true ∧
    error final = Some "'NoneType' object is not callable" ∧
    logs final = (logs rs ++ ["running " +:+ name])%list ∧
    run_graph eng graph_id initial_state false uuid
      = (mkEngine (graphs eng) (<[uuid := final]> (runs eng)) (tasks eng),
         Return uuid) ∧
    (∀ other, other ≠ uuid →
       runs (fst (run_graph eng graph_id initial_state false uuid)) !! other
         = runs eng !! other) ∧
    (tasks eng = [] →
     run_task (fst (run_graph eng graph_id initial_state true uuid))
       = mkEngine (graphs eng) (<[uuid := final]> (runs eng)) []).
Proof.
  intros Hgraph Hstart Hsteps Hlt Hmissing.
  apply steps_to_run_loop in Hsteps. unfold run_loop in Hsteps. cbn in Hsteps.
  assert (Hexec : _execute spec (new_run uuid graph_id initial_state)
                  = (entered (PyStr name) rs, Raise none_not_callable)).
  { unfold _execute.
    destruct (String.eqb_spec (start_node spec) ""); [contradiction|].
    cbn [state new_run]. rewrite Hsteps, while_loop_eq. cbn [is_none].
    destruct (decide (max_steps_or_1000 (max_steps spec) ≤ visited)%Z); [lia|].
    rewrite loop_body_eq. cbn [table_get]. rewrite Hmissing. reflexivity. }
  eexists. split; [reflexivity|].
  unfold run_graph, _runner. rewrite Hgraph, Hexec.
  repeat split.
  - intros other Hother. cbn. by rewrite lookup_insert_ne.
  - intros Htasks. unfold run_task. cbn. rewrite Htasks. cbn. f_equal.
    apply map_eq. intros k. rewrite lookup_alter.
    destruct (decide (uuid = k)) as [->|Hk].
    + rewrite !lookup_insert_eq. cbn. unfold _runner. rewrite Hexec. reflexivity.
    + rewrite !lookup_insert_ne by congruence. reflexivity.
Qed.

Lemma missing_node_fails_only_its_run_witness :
  ∃ final,
    _runner Examples.dangling (new_run "run-1" "graph-2" ∅) = final ∧
    finished final = true ∧
    error final = Some "'NoneType' object is not callable" ∧
    logs final = ["running first"; "first: node returned dict";
                  "first -> next: ghost"; "running ghost"] ∧
    runs (fst (run_graph Examples.engine "graph-2" ∅ false "run-1")) !! "run-0"
      = Some (Examples.fresh_run ∅).
Proof.
  assert (Hsteps :
    steps_to Examples.dangling 1000
      (mkConfig 0 (PyStr "first") ∅ (new_run "run-1" "graph-2" ∅))
      (mkConfig 1 (PyStr "ghost") ∅
         (mkRunState "run-1" "graph-2" ∅
            ["running first"; "first: node returned dict";
             "first -> next: ghost"]
            (PyStr "first") false None))).
  { apply (steps_pass Examples.dangling 1000 0 (PyStr "first") ∅
             (new_run "run-1" "graph-2" ∅)
             (mkRunState "run-1" "graph-2" ∅
                ["running first"; "first: node returned dict";
                 "first -> next: ghost"]
                (PyStr "first") false None)
             ∅ (PyStr "ghost"));
      [reflexivity | reflexivity | vm_compute; reflexivity | apply steps_here]. }
  destruct (missing_node_fails_only_its_run Examples.engine "graph-2"
              Examples.dangling ∅ "run-1" 1 "ghost" ∅ _
              eq_refl ltac:(discriminate) Hsteps eq_refl eq_refl)
    as (final & Hfinal & Hfin & Herr & Hlogs & _ & Hother & _).
  exists final. split; [exact Hfinal|]. split; [exact Hfin|].
  split; [exact Herr|]. split; [exact Hlogs|].
  rewrite (Hother "run-0"); [reflexivity | discriminate].
Defined.

(** C4 as stated fails: the error recorded for a missing node is not a
    message of a kind of its own.  It is the text Python gives to any call
    of [None], and a graph in which the node is defined and raises that
    [TypeError] ends in the very same record. *)
Lemma missing_node_error_is_generic :
  nodes Examples.dangling !! "ghost" = None ∧
  error (_runner Examples.dangling (new_run "run-1" "graph-2" ∅))
    = Some "'NoneType' object is not callable" ∧
  is_Some (nodes MoreExamples.haunted !! "ghost") ∧
  _runner MoreExamples.haunted (new_run "run-1" "graph-2" ∅)
    = _runner Examples.dangling (new_run "run-1" "graph-2" ∅).
Proof.
  split; [reflexivity|]. split; [reflexivity|].
  split; [eexists; reflexivity|]. vm_compute. reflexivity.
Qed.

(** C9 fails on the code: a run that ends by an exception is marked
    [finished] by [_runner], which does not reset [current_node]; the field
    still names the node at which the run failed.  Here the run of a graph
    whose edge leads to an undefined node. *)
Lemma failed_run_keeps_current_node :
  finished (_runner Examples.dangling (new_run "run-1" "graph-2" ∅)) = true ∧
  error (_runner Examples.dangling (new_run "run-1" "graph-2" ∅))
    = Some "'NoneType' object is not callable" ∧
  current_node (_runner Examples.dangling (new_run "run-1" "graph-2" ∅))
    = PyStr "ghost".
Proof. repeat split. Qed.

(** C8: the two-node graph N1 -> N2, where N1 yields [{"x": 1}] and N2
    yields [{"x": 2}], each with a log line and no next node, run from the
    empty state, ends with state [{"x": 2}], [finished] set, no [error], and
    exactly the six log entries below, in this order. *)
Theorem two_node_run n1 n2 log1 log2 budget uuid gid :
  node_yields n1 {[ "x" := VInt 1 ]} log1 →
  node_yields n2 {[ "x" := VInt 2 ]} log2 →
  (2 ≤ max_steps_or_1000 budget)%Z →
  _runner (mkGraphSpec {[ "N1" := n1; "N2" := n2 ]}
                       {[ "N1" := EObj (PyStr "N2") ]} "N1" budget)
          (new_run uuid gid ∅)
    = mkRunState uuid gid {[ "x" := VInt 2 ]}
        ["running N1"; "N1: " +:+ log1; "N1 -> next: N2";
         "running N2"; "N2: " +:+ log2; "N2 -> next: None"]
        PyNone true None.
Proof.
  intros Hn1 Hn2 Hbudget.
  destruct (Hn1 ∅) as (res1 & Hcall1 & Hlog1 & Hnext1).
  destruct (Hn2 ({[ "x" := VInt 1 ]} ∪ ∅)) as (res2 & Hcall2 & Hlog2 & Hnext2).
  unfold _runner, _execute. cbn [start_node max_steps state new_run String.eqb].
  change (String.eqb "N1" "") with false. cbn match.
  (* first pass: N1 *)
  enter_pass.
  change (table_get _ (PyStr "N1")) with (Some n1).
  rewrite Hcall1. cbn zeta. unfold resolve at 1. rewrite Hnext1.
  change (edge_branch _ (PyStr "N1") _) with (Return (A:=obj) (PyStr "N2")).
  cbn match.
  (* second pass: N2 *)
  enter_pass.
  change (table_get _ (PyStr "N2")) with (Some n2).
  rewrite Hcall2. cbn zeta. unfold resolve at 1. rewrite Hnext2.
  change (edge_branch _ (PyStr "N2") _) with (Return (A:=obj) PyNone).
  cbn match.
  (* [current] is None: the loop ends *)
  rewrite while_loop_eq. cbn [is_none].
  unfold merged. rewrite Hlog1, Hlog2.
  reflexivity.
Qed.

Lemma two_node_run_witness :
  _runner (mkGraphSpec {[ "N1" := Examples.N1; "N2" := Examples.N2 ]}
                       {[ "N1" := EObj (PyStr "N2") ]} "N1" (Some 1000%Z))
          (new_run "run-1" "graph-1" ∅)
    = mkRunState "run-1" "graph-1" {[ "x" := VInt 2 ]}
        ["running N1"; "N1: set x"; "N1 -> next: N2";
         "running N2"; "N2: node returned dict"; "N2 -> next: None"]
        PyNone true None.
Proof.
  apply (two_node_run Examples.N1 Examples.N2 "set x" "node returned dict"
           (Some 1000%Z) "run-1" "graph-1").
  - intros st. eexists. repeat split.
  - intros st. eexists. repeat split.
  - vm_compute. discriminate.
Defined.

(** * Further properties of the engine *)

(** ** Reasoning along the loop *)

(** Induction over the iterations of [while_loop]: one case for each way
    an iteration can go. *)
Lemma while_loop_cases spec max_steps
    (P : Z → obj → dict → RunState → RunState * result Z → Prop) :
  (∀ visited current st rs,
     is_none current = true → P visited current st rs (rs, Return visited)) →
  (∀ visited current st rs,
     is_none current = false → (max_steps ≤ visited)%Z →
     P visited current st rs
       (append_log "max steps reached; aborting" rs, Return visited)) →
  (∀ visited current st rs rs' e,
     is_none current = false → (visited < max_steps)%Z →
     loop_body spec current st rs = (rs', Raise e) →
     P visited current st rs (rs', Raise e)) →
  (∀ visited current st rs rs' st' next_node,
     is_none current = false → (visited < max_steps)%Z →
     loop_body spec current st rs = (rs', Return (st', next_node)) →
     P (visited + 1)%Z next_node st' rs'
       (while_loop spec max_steps (visited + 1) next_node st' rs') →
     P visited current st rs
       (while_loop spec max_steps (visited + 1) next_node st' rs')) →
  ∀ visited current st rs,
    P visited current st rs (while_loop spec max_steps visited current st rs).
Proof.
  intros Hnone Habort Hraise Hpass visited.
  remember (Z.to_nat (max_steps - visited)) as n eqn:Hn.
  revert visited Hn.
  induction n as [|n IH]; intros visited Hn current st rs;
    rewrite while_loop_eq;
    destruct (is_none current) eqn:Hcur; try (apply Hnone; exact Hcur);
    destruct (decide (max_steps ≤ visited)%Z) as [Hle|Hlt];
    try (apply Habort; assumption); try lia.
  destruct (loop_body spec current st rs) as [rs' [[st' next_node]|e]] eqn:Hbody.
  - apply Hpass; [exact Hcur|lia|exact Hbody|]. apply IH. lia.
  - apply Hraise; [exact Hcur|lia|exact Hbody].
Qed.

Lemma same_run_refl rs : same_run rs rs.
Proof. repeat split. exists []. by rewrite app_nil_r. Qed.

Lemma same_run_trans rs1 rs2 rs3 :
  same_run rs1 rs2 → same_run rs2 rs3 → same_run rs1 rs3.
Proof.
  intros (Hid & Hg & Hf & He & more & Hl) (Hid' & Hg' & Hf' & He' & more' & Hl').
  repeat split; try congruence.
  exists (more ++ more')%list. rewrite Hl', Hl, app_assoc. reflexivity.
Qed.

Lemma loop_body_same_run spec current st rs rs' r :
  loop_body spec current st rs = (rs', r) → same_run rs rs'.
Proof.
  intros Hbody.
  apply loop_body_frame in Hbody as (Hid & Hg & Hf & He & _ & more & Hl).
  repeat split; try assumption. eexists; exact Hl.
Qed.

Lemma while_loop_same_run spec max_steps visited current st rs :
  same_run rs (fst (while_loop spec max_steps visited current st rs)).
Proof.
  apply (while_loop_cases spec max_steps
           (fun _ _ _ rs out => same_run rs (fst out))); clear.
  - intros. apply same_run_refl.
  - intros. repeat split. eexists; reflexivity.
  - intros visited current st rs rs' e _ _ Hbody.
    apply (loop_body_same_run _ _ _ _ _ _ Hbody).
  - intros visited current st rs rs' st' next_node _ _ Hbody IH.
    apply (same_run_trans _ rs'); [|exact IH].
    apply (loop_body_same_run _ _ _ _ _ _ Hbody).
Qed.

(** [_execute] writes [finished] on its normal exit and nothing else
    beyond what the loop writes. *)
Lemma execute_frame spec rs :
  run_id (fst (_execute spec rs)) = run_id rs ∧
  graph_id (fst (_execute spec rs)) = graph_id rs ∧
  error (fst (_execute spec rs)) = error rs ∧
  ∃ more, logs (fst (_execute spec rs)) = (logs rs ++ more)%list.
Proof.
  unfold _execute.
  destruct (String.eqb (start_node spec) "").
  - cbn. repeat split. exists []. by rewrite app_nil_r.
  - pose proof (while_loop_same_run spec (max_steps_or_1000 (max_steps spec)) 0
                  (PyStr (start_node spec)) (state rs) rs)
      as (Hid & Hg & _ & He & more & Hl).
    destruct (while_loop spec _ 0 _ (state rs) rs) as [rs' [n|e]]; cbn in *;
      repeat split; try assumption; eexists; exact Hl.
Qed.

(** ** The record of a run *)

(** However [_execute] ends, [_runner] leaves the record finished. *)
Lemma runner_frame spec rs :
  finished (_runner spec rs) = true ∧
  run_id (_runner spec rs) = run_id rs ∧
  graph_id (_runner spec rs) = graph_id rs.
Proof.
  pose proof (execute_frame spec rs) as (Hid & Hg & _).
  unfold _runner.
  destruct (_execute spec rs) as [rs' [[]|e]] eqn:Hexec; cbn in *;
    repeat split; try assumption.
  unfold _execute in Hexec.
  destruct (String.eqb (start_node spec) ""); [discriminate|].
  destruct (while_loop spec _ 0 _ (state rs) rs) as [rs1 [n|e]];
    [|discriminate].
  injection Hexec as <-. reflexivity.
Qed.

(** X1: whatever the graph and the record it starts from, [_runner] ends
    with [finished] set, keeps [run_id] and [graph_id], and only appends to
    the log: the entries that were there stay, in place. *)
Theorem runner_finishes_and_appends spec rs :
  finished (_runner spec rs) = true ∧
  run_id (_runner spec rs) = run_id rs ∧
  graph_id (_runner spec rs) = graph_id rs ∧
  ∃ more, logs (_runner spec rs) = (logs rs ++ more)%list.
Proof.
  destruct (runner_frame spec rs) as (Hfin & Hid & Hg).
  repeat split; try assumption.
  pose proof (execute_frame spec rs) as (_ & _ & _ & more & Hl).
  exists more. unfold _runner.
  destruct (_execute spec rs) as [rs' [[]|e]]; exact Hl.
Qed.

(** X2: a run that starts without an error and ends without one has left
    the loop by its normal exit: [current_node] is [None] and [finished] is
    set.  An exception is the only way to end with [current_node] set. *)
Theorem clean_run_resets_current_node spec rs :
  error rs = None →
  error (_runner spec rs) = None →
  current_node (_runner spec rs) = PyNone ∧ finished (_runner spec rs) = true.
Proof.
  intros Herr. unfold _runner.
  destruct (_execute spec rs) as [rs' [[]|e]] eqn:Hexec.
  - intros _. unfold _execute in Hexec.
    destruct (String.eqb (start_node spec) ""); [discriminate|].
    destruct (while_loop spec _ 0 _ (state rs) rs) as [rs1 [n|e]];
      [|discriminate].
    injection Hexec as <-. split; reflexivity.
  - cbn. discriminate.
Qed.

Lemma clean_run_resets_current_node_witness :
  current_node (_runner (Examples.spinning (Some 3%Z)) (Examples.fresh_run ∅))
    = PyNone ∧
  finished (_runner (Examples.spinning (Some 3%Z)) (Examples.fresh_run ∅)) = true.
Proof.
  apply (clean_run_resets_current_node (Examples.spinning (Some 3%Z))
           (Examples.fresh_run ∅)); reflexivity.
Defined.

(** ** Starting a run *)

(** X3: [run_graph] on a registered graph, in the foreground, returns the
    identifier it drew and changes the engine in one place only: the run
    registry gets, under that identifier, a record that is finished and
    carries the run and graph identifiers.  Graphs, other runs and
    scheduled tasks are as before. *)
Theorem foreground_run_registers_finished_record
    eng gid spec initial_state uuid :
  graphs eng !! gid = Some spec →
  ∃ record,
    run_graph eng gid initial_state false uuid
      = (mkEngine (graphs eng) (<[uuid := record]> (runs eng)) (tasks eng),
         Return uuid) ∧
    run_id record = uuid ∧ graph_id record = gid ∧
    finished record = true.
Proof.
  intros Hgraph. unfold run_graph. rewrite Hgraph.
  eexists. split; [reflexivity|].
  destruct (runner_frame spec (new_run uuid gid initial_state))
    as (Hfin & Hid & Hg).
  repeat split; assumption.
Qed.

Lemma foreground_run_registers_finished_record_witness :
  ∃ record,
    run_graph Examples.engine "graph-2" ∅ false "run-7"
      = (mkEngine (graphs Examples.engine)
                  (<["run-7" := record]> (runs Examples.engine))
                  (tasks Examples.engine),
         Return "run-7") ∧
    run_id record = "run-7" ∧ graph_id record = "graph-2" ∧
    finished record = true.
Proof.
  apply (foreground_run_registers_finished_record Examples.engine "graph-2"
           Examples.dangling ∅ "run-7").
  reflexivity.
Defined.

(** X4: a background [run_graph] returns at once, with the record
    registered as it was built (not finished, empty log, the initial
    state); when the event loop then runs the task, the engine is the one
    a foreground call would have produced. *)
Theorem background_run_then_task_is_foreground_run
    eng graph_id spec initial_state uuid :
  graphs eng !! graph_id = Some spec →
  tasks eng = [] →
  snd (run_graph eng graph_id initial_state true uuid) = Return uuid ∧
  runs (fst (run_graph eng graph_id initial_state true uuid)) !! uuid
    = Some (new_run uuid graph_id initial_state) ∧
  run_task (fst (run_graph eng graph_id initial_state true uuid))
    = fst (run_graph eng graph_id initial_state false uuid).
Proof.
  intros Hgraph Htasks. unfold run_graph. rewrite Hgraph. cbn.
  split; [reflexivity|]. split; [apply lookup_insert_eq|].
  unfold run_task. cbn. rewrite Htasks. cbn. f_equal.
  apply map_eq. intros k. rewrite lookup_alter.
  destruct (decide (uuid = k)) as [->|Hk].
  - rewrite !lookup_insert_eq. reflexivity.
  - rewrite !lookup_insert_ne by congruence. reflexivity.
Qed.

Lemma background_run_then_task_is_foreground_run_witness :
  snd (run_graph Examples.engine "graph-1" ∅ true "run-7") = Return "run-7" ∧
  runs (fst (run_graph Examples.engine "graph-1" ∅ true "run-7")) !! "run-7"
    = Some (new_run "run-7" "graph-1" ∅) ∧
  run_task (fst (run_graph Examples.engine "graph-1" ∅ true "run-7"))
    = fst (run_graph Examples.engine "graph-1" ∅ false "run-7").
Proof.
  apply (background_run_then_task_is_foreground_run Examples.engine "graph-1"
           Examples.gated ∅ "run-7"); reflexivity.
Defined.

(** X5: a graph stored by [create_graph] can be run under the identifier
    that was returned: [run_graph] finds it and runs this very graph.
    Storing a graph changes no other graph and no run. *)
Theorem created_graph_can_be_run eng spec uuid initial_state run_uuid :
  snd (create_graph eng spec uuid) = uuid ∧
  runs (fst (create_graph eng spec uuid)) = runs eng ∧
  (∀ other, other ≠ uuid →
     graphs (fst (create_graph eng spec uuid)) !! other = graphs eng !! other) ∧
  run_graph (fst (create_graph eng spec uuid)) uuid initial_state false run_uuid
    = (mkEngine (<[uuid := spec]> (graphs eng))
                (<[run_uuid := _runner spec (new_run run_uuid uuid initial_state)]>
                   (runs eng))
                (tasks eng),
       Return run_uuid).
Proof.
  unfold create_graph, run_graph. cbn.
  split; [reflexivity|]. split; [reflexivity|]. split.
  - intros other Hother. by rewrite lookup_insert_ne.
  - rewrite lookup_insert_eq. reflexivity.
Qed.

(** ** Edge cases of [_execute] *)

(** X6: a graph whose [start_node] is the empty string runs no node:
    [_execute] raises [ValueError] before the loop, and the foreground run
    is registered with the error "graph has no start_node", finished, an
    empty log, the initial state and no current node. *)
Theorem empty_start_node_runs_nothing eng graph_id spec initial_state uuid :
  graphs eng !! graph_id = Some spec →
  start_node spec = "" →
  run_graph eng graph_id initial_state false uuid
    = (mkEngine (graphs eng)
         (<[uuid := mkRunState uuid graph_id initial_state [] PyNone true
                      (Some "graph has no start_node")]> (runs eng))
         (tasks eng),
       Return uuid).
Proof.
  intros Hgraph Hstart. unfold run_graph, _runner, _execute.
  rewrite Hgraph, Hstart. reflexivity.
Qed.

Lemma empty_start_node_runs_nothing_witness :
  run_graph MoreExamples.engine "nameless" {[ "a" := VInt 1 ]} false "run-7"
    = (mkEngine (graphs MoreExamples.engine)
         (<["run-7" := mkRunState "run-7" "nameless" {[ "a" := VInt 1 ]} []
                         PyNone true (Some "graph has no start_node")]>
            (runs MoreExamples.engine))
         (tasks MoreExamples.engine),
       Return "run-7").
Proof.
  apply (empty_start_node_runs_nothing MoreExamples.engine "nameless"
           MoreExamples.nameless {[ "a" := VInt 1 ]} "run-7"); reflexivity.
Defined.

(** X7: with a negative [max_steps] the budget test fails before the first
    step: no node is run, the only log entry added is the abort entry, and
    the run ends finished, without error and with its state untouched. *)
Theorem negative_budget_runs_nothing spec rs budget :
  start_node spec ≠ "" →
  max_steps spec = Some budget →
  (budget < 0)%Z →
  _runner spec rs
    = set_current_node PyNone
        (set_finished true (append_log "max steps reached; aborting" rs)).
Proof.
  intros Hstart Hbudget Hneg. unfold _runner, _execute.
  destruct (String.eqb_spec (start_node spec) ""); [contradiction|].
  rewrite Hbudget. cbn [max_steps_or_1000].
  destruct (Z.eqb_spec budget 0); [lia|].
  rewrite while_loop_eq. cbn [is_none].
  destruct (decide (budget ≤ 0)%Z); [reflexivity|lia].
Qed.

Lemma negative_budget_runs_nothing_witness :
  _runner (Examples.spinning (Some (-1)%Z)) (Examples.fresh_run ∅)
    = mkRunState "run-1" "graph-1" ∅ ["max steps reached; aborting"]
                 PyNone true None.
Proof.
  apply (negative_budget_runs_nothing (Examples.spinning (Some (-1)%Z))
           (Examples.fresh_run ∅) (-1)).
  - discriminate.
  - reflexivity.
  - lia.
Defined.

(** ** Failures inside a step *)



(** ** Bounds *)

Lemma loop_body_log_bound spec current st rs :
  (length (logs (fst (loop_body spec current st rs)))
   ≤ length (logs rs) + 3)%nat.
Proof.
  rewrite loop_body_eq.
  destruct (_call_node _ st) as [[new_state node_res]|e]; cbn zeta; unfold merged.
  - destruct (resolve _ current node_res _);
      destruct (nonempty (nr_log node_res)); cbn;
      rewrite ?length_app; cbn; lia.
  - cbn. rewrite length_app. cbn. lia.
Qed.

Lemma while_loop_log_bound spec max_steps visited current st rs :
  (length (logs (fst (while_loop spec max_steps visited current st rs)))
   ≤ length (logs rs) + 3 * Z.to_nat (max_steps - visited) + 1)%nat.
Proof.
  apply (while_loop_cases spec max_steps
           (fun visited _ _ rs out =>
              (length (logs (fst out))
               ≤ length (logs rs) + 3 * Z.to_nat (max_steps - visited) + 1)%nat));
    clear.
  - intros. cbn. lia.
  - intros. cbn. rewrite length_app. cbn. lia.
  - intros visited current st rs rs' e _ Hlt Hbody.
    pose proof (loop_body_log_bound spec current st rs) as Hb.
    rewrite Hbody in Hb. cbn in *. lia.
  - intros visited current st rs rs' st' next_node _ Hlt Hbody IH.
    pose proof (loop_body_log_bound spec current st rs) as Hb.
    rewrite Hbody in Hb. cbn in Hb. lia.
Qed.

(** X9: a run appends at most three log entries for each step the budget
    allows, and one more for the abort: the log of a run is bounded by the
    budget, whatever the graph does. *)
Theorem run_log_is_bounded_by_budget spec rs :
  (length (logs (_runner spec rs))
   ≤ length (logs rs) + 3 * Z.to_nat (max_steps_or_1000 (max_steps spec)) + 1)%nat.
Proof.
  unfold _runner, _execute.
  destruct (String.eqb (start_node spec) ""); [cbn; lia|].
  pose proof (while_loop_log_bound spec (max_steps_or_1000 (max_steps spec)) 0
                (PyStr (start_node spec)) (state rs) rs) as Hb.
  destruct (while_loop spec _ 0 _ (state rs) rs) as [rs' [n|e]]; cbn in *;
    replace (max_steps_or_1000 (max_steps spec) - 0)%Z
      with (max_steps_or_1000 (max_steps spec)) in Hb by lia; lia.
Qed.

(** X10: raising the budget does not change a run that did not use it up:
    if the loop, under budget [b], ended by an exception or by itself after
    fewer than [b] steps, the same graph with any larger budget gives the
    same record. *)
Theorem larger_budget_same_run spec rs b b' :
  max_steps spec = Some b →
  (0 < b ≤ b')%Z →
  match snd (while_loop spec b 0 (PyStr (start_node spec)) (state rs) rs) with
  | Return n => (n < b)%Z
  | Raise _ => True
  end →
  _runner (mkGraphSpec (nodes spec) (edges spec) (start_node spec) (Some b')) rs
    = _runner spec rs.
Proof.
  intros Hb Hle Hend.
  assert (Hloop : while_loop spec b' 0 (PyStr (start_node spec)) (state rs) rs
                  = while_loop spec b 0 (PyStr (start_node spec)) (state rs) rs).
  { revert Hend.
    apply (while_loop_cases spec b
             (fun visited current st rs out =>
                match snd out with
                | Return n => (n < b)%Z
                | Raise _ => True
                end →
                while_loop spec b' visited current st rs = out)).
    - intros visited current st rs0 Hcur _.
      rewrite while_loop_eq, Hcur. reflexivity.
    - intros visited current st rs0 _ Hge Hlt. cbn in Hlt. lia.
    - intros visited current st rs0 rs' e Hcur Hlt Hbody _.
      rewrite while_loop_eq, Hcur, Hbody.
      destruct (decide (b' ≤ visited)%Z); [lia|reflexivity].
    - intros visited current st rs0 rs' st' next_node Hcur Hlt Hbody IH Hend.
      rewrite while_loop_eq, Hcur, Hbody.
      destruct (decide (b' ≤ visited)%Z); [lia|]. apply IH, Hend. }
  unfold _runner, _execute. cbn [start_node max_steps nodes edges].
  rewrite Hb. cbn [max_steps_or_1000].
  destruct (Z.eqb_spec b 0); [lia|]. destruct (Z.eqb_spec b' 0); [lia|].
  destruct (String.eqb (start_node spec) ""); [reflexivity|].
  rewrite <- Hloop.
  rewrite (while_loop_same_tables
             (mkGraphSpec (nodes spec) (edges spec) (start_node spec) (Some b'))
             spec b' eq_refl eq_refl (Z.to_nat (b' - 0)) 0%Z); reflexivity.
Qed.

Lemma larger_budget_same_run_witness :
  _runner (mkGraphSpec (nodes MoreExamples.straight) (edges MoreExamples.straight)
                       (start_node MoreExamples.straight) (Some 5000%Z))
          (Examples.fresh_run ∅)
    = _runner MoreExamples.straight (Examples.fresh_run ∅).
Proof.
  apply (larger_budget_same_run MoreExamples.straight (Examples.fresh_run ∅)
           5 5000).
  - reflexivity.
  - lia.
  - vm_compute. reflexivity.
Defined.

(** ** The state of a run *)




(** ** Field comparisons *)

Section FieldComparisonMore.
Variables (spec : GraphSpec) (current : obj) (node_res : NodeResult).
Variables (st : dict) (d : gmap string obj) (field : obj).
Hypothesis no_override : nonempty (nr_next_node node_res) = None.
Hypothesis descriptor : table_get (edges spec) current = Some (EDict d).
Hypothesis no_predicate : ∀ repr f, d !! "cond" ≠ Some (OCallable repr f).
Hypothesis has_field : d !! "field" = Some field.

(** X13: an operator that is not one of [>=], [<=], [>], [<] — for
    instance ["!="] — is not rejected: the descriptor is resolved as an
    equality test of the field against the comparison value, and this
    never raises, whatever the types of the two. *)
Theorem unknown_operator_is_equality :
  ordering_op (default (PyStr "==") (d !! "op")) = false →
  resolve (edges spec) current node_res st
    = Return (if py_eq (OData (state_get st field)) (dict_get d "value")
              then dict_get d "true" else dict_get d "false").
Proof.
  intros Hop.
  rewrite (resolve_field_branch _ _ _ _ _ no_override descriptor no_predicate).
  unfold field_branch, ordering_op in *. rewrite has_field.
  destruct (py_eq _ (PyStr ">=")); [discriminate|].
  destruct (py_eq _ (PyStr "<=")); [discriminate|].
  destruct (py_eq _ (PyStr ">")); [discriminate|].
  destruct (py_eq _ (PyStr "<")); [discriminate|].
  reflexivity.
Qed.

(** X14: an ordering operator applied to a field value and a comparison
    value that Python does not order (a string against a number, anything
    against a callable or [None]) raises [TypeError] out of branch
    resolution.  The step fails after the node's update has been merged
    into the record and its log line written. *)
Theorem ordering_unlike_types_raises sym new_state rs :
  In sym [">="; "<="; ">"; "<"] →
  d !! "op" = Some (PyStr sym) →
  state_get (new_state ∪ st) field ≠ VNone →
  comparable (OData (state_get (new_state ∪ st) field)) (dict_get d "value")
    = false →
  _call_node (table_get (nodes spec) current) st
    = Return (new_state, node_res) →
  let raised :=
    TypeError ("'" +:+ sym +:+ "' not supported between instances of '"
               +:+ type_name (OData (state_get (new_state ∪ st) field))
               +:+ "' and '" +:+ type_name (dict_get d "value") +:+ "'") in
  resolve (edges spec) current node_res (new_state ∪ st) = Raise raised ∧
  loop_body spec current st rs
    = (merged current node_res (new_state ∪ st) rs, Raise raised).
Proof.
  intros Hsym Hop Hval Hcmp Hcall raised.
  assert (Hres : resolve (edges spec) current node_res (new_state ∪ st)
                 = Raise raised).
  { rewrite (resolve_field_branch _ _ _ _ _ no_override descriptor no_predicate).
    unfold field_branch. rewrite has_field, Hop. cbn [default].
    unfold raised. clear raised.
    destruct (state_get (new_state ∪ st) field) as [|b|z|s] eqn:Hget;
      [contradiction|..];
      destruct (dict_get d "value") as [[|b'|z'|s']|repr f];
      try discriminate Hcmp;
      cbn in Hsym; destruct Hsym as [<-|[<-|[<-|[<-|[]]]]]; reflexivity. }
  split; [exact Hres|].
  rewrite loop_body_eq, Hcall. cbn zeta. rewrite Hres. reflexivity.
Qed.
End FieldComparisonMore.

Lemma unknown_operator_is_equality_witness :
  resolve {[ "check" := EDict MoreExamples.score_differs_from_80 ]} (PyStr "check")
          Examples.no_override {[ "score" := VInt 80 ]}
    = Return (PyStr "done").
Proof.
  exact (unknown_operator_is_equality
           (mkGraphSpec ∅ {[ "check" := EDict MoreExamples.score_differs_from_80 ]}
                        "check" None)
           (PyStr "check") Examples.no_override {[ "score" := VInt 80 ]}
           MoreExamples.score_differs_from_80 (PyStr "score")
           eq_refl eq_refl ltac:(intros repr f; vm_compute; discriminate)
           eq_refl eq_refl).
Defined.

Lemma ordering_unlike_types_raises_witness :
  resolve (edges MoreExamples.graded) (PyStr "grade")
          (mkNodeResult {[ "score" := VStr "high" ]} (Some "graded") None)
          ({[ "score" := VStr "high" ]} ∪ ∅)
    = Raise (TypeError "'>=' not supported between instances of 'str' and 'int'") ∧
  loop_body MoreExamples.graded (PyStr "grade") ∅ (Examples.fresh_run ∅)
    = (mkRunState "run-1" "graph-1" {[ "score" := VStr "high" ]}
         ["running grade"; "grade: graded"] (PyStr "grade") false None,
       Raise (TypeError "'>=' not supported between instances of 'str' and 'int'")).
Proof.
  exact (ordering_unlike_types_raises MoreExamples.graded (PyStr "grade")
           (mkNodeResult {[ "score" := VStr "high" ]} (Some "graded") None)
           ∅ Examples.score_at_least_80 (PyStr "score")
           eq_refl eq_refl ltac:(intros repr f; vm_compute; discriminate) eq_refl
           ">=" {[ "score" := VStr "high" ]} (Examples.fresh_run ∅)
           ltac:(left; reflexivity) eq_refl ltac:(vm_compute; discriminate)
           eq_refl eq_refl).
Defined.

(** * The tools *)

(** ** Searching and splitting strings *)

Lemma count_from_positive_in sub s :
  ∀ skip, (0 < count_from sub skip s)%nat → py_in sub s = true.
Proof.
  induction s as [|c rest IH]; intros skip; cbn [count_from py_in]; [lia|].
  destruct skip as [|skip'].
  - destruct (String.prefix sub (String c rest)); [reflexivity|].
    intros Hpos. rewrite (IH _ Hpos). apply orb_true_r.
  - intros Hpos. rewrite (IH _ Hpos). apply orb_true_r.
Qed.

Lemma in_count_from_positive sub s :
  sub ≠ "" → py_in sub s = true → (0 < count_from sub 0 s)%nat.
Proof.
  intros Hsub. induction s as [|c rest IH]; cbn [count_from py_in].
  - destruct sub; [contradiction|]. discriminate.
  - destruct (String.prefix sub (String c rest)); [lia|].
    cbn. exact IH.
Qed.

(** A keyword occurs in the code exactly when its count is not zero. *)
Lemma str_count_zero_iff s sub :
  sub ≠ "" → (str_count s sub = 0%Z ↔ py_in sub s = false).
Proof.
  intros Hsub. unfold str_count.
  destruct (String.eqb_spec sub ""); [contradiction|].
  pose proof (count_from_positive_in sub s 0) as Hin.
  pose proof (in_count_from_positive sub s Hsub) as Hcount.
  destruct (py_in sub s); split; intros H; try reflexivity; try discriminate.
  - specialize (Hcount eq_refl). lia.
  - destruct (count_from sub 0 s); [reflexivity|].
    discriminate Hin. lia.
Qed.

Lemma str_count_nonneg s sub : (0 ≤ str_count s sub)%Z.
Proof. unfold str_count. destruct (String.eqb sub ""); lia. Qed.

Lemma append_char_not_empty line c :
  String.eqb (line +:+ String c "") "" = false.
Proof. destruct line; reflexivity. Qed.

Lemma splitlines_from_length :
  ∀ (n : nat) s line after_cr,
    (String.length s ≤ n)%nat →
    (length (splitlines_from s line after_cr)
     ≤ String.length s + (if String.eqb line "" then 0 else 1))%nat.
Proof.
  induction n as [|n IH]; intros s line after_cr Hlen.
  - destruct s; [|cbn in Hlen; lia]. cbn.
    destruct (String.eqb line ""); cbn; lia.
  - destruct s as [|c rest]; cbn [splitlines_from String.length] in *.
    { destruct (String.eqb line ""); cbn; lia. }
    assert (Hbreak : ∀ after,
              (length (line :: splitlines_from rest "" after)
               ≤ S (String.length rest)
                 + (if String.eqb line "" then 0 else 1))%nat).
    { intros after. cbn [length].
      pose proof (IH rest "" after ltac:(lia)) as H. cbn in H. lia. }
    assert (Hkeep :
              (length (splitlines_from rest (line +:+ String c "") false)
               ≤ S (String.length rest)
                 + (if String.eqb line "" then 0 else 1))%nat).
    { pose proof (IH rest (line +:+ String c "") false ltac:(lia)) as H.
      rewrite append_char_not_empty in H. lia. }
    destruct (Ascii.eqb c "010").
    { destruct after_cr; [|apply Hbreak].
      pose proof (IH rest "" false ltac:(lia)) as H. cbn in H. lia. }
    destruct (Ascii.eqb c "013"); [apply Hbreak|].
    destruct (single_byte_break c); [apply Hbreak|].
    destruct rest as [|c1 rest1]; [exact Hkeep|].
    destruct (Ascii.eqb c "194" && Ascii.eqb c1 "133").
    { cbn [length String.length].
      pose proof (IH rest1 "" false ltac:(cbn in Hlen; lia)) as H.
      cbn in H. lia. }
    destruct rest1 as [|c2 rest2]; [exact Hkeep|].
    destruct (Ascii.eqb c "226" && Ascii.eqb c1 "128" &&
              (Ascii.eqb c2 "168" || Ascii.eqb c2 "169")); [|exact Hkeep].
    cbn [length String.length].
    pose proof (IH rest2 "" false ltac:(cbn in Hlen; lia)) as H.
    cbn in H. lia.
Qed.

(** A text has no more lines than it has bytes. *)
Lemma splitlines_length s : (length (splitlines s) ≤ String.length s)%nat.
Proof.
  pose proof (splitlines_from_length (String.length s) s "" false (le_n _)) as H.
  cbn in H. unfold splitlines. lia.
Qed.

(** ** [compute_complexity] and [detect_smells] *)

(** X15: the complexity of a code is at least 1, and it is 1 exactly when
    none of the keywords "if ", "for ", "while ", "try:" and "except"
    occurs in it (so also for the empty code). *)
Theorem complexity_is_one_iff_no_keyword code :
  ∃ score,
    compute_complexity code = {[ "complexity" := score ]} ∧
    (1 ≤ score)%Z ∧
    (score = 1%Z ↔ ∀ kw, In kw branch_keywords → py_in kw code = false).
Proof.
  eexists. split; [reflexivity|].
  unfold branch_keywords. cbn [fold_left].
  pose proof (str_count_nonneg code "if ") as H1.
  pose proof (str_count_nonneg code "for ") as H2.
  pose proof (str_count_nonneg code "while ") as H3.
  pose proof (str_count_nonneg code "try:") as H4.
  pose proof (str_count_nonneg code "except") as H5.
  pose proof (str_count_zero_iff code "if " ltac:(discriminate)) as Z1.
  pose proof (str_count_zero_iff code "for " ltac:(discriminate)) as Z2.
  pose proof (str_count_zero_iff code "while " ltac:(discriminate)) as Z3.
  pose proof (str_count_zero_iff code "try:" ltac:(discriminate)) as Z4.
  pose proof (str_count_zero_iff code "except" ltac:(discriminate)) as Z5.
  split; [lia|]. split.
  - intros Hone kw Hin. cbn in Hin.
    destruct Hin as [<-|[<-|[<-|[<-|[<-|[]]]]]];
      [apply Z1|apply Z2|apply Z3|apply Z4|apply Z5]; lia.
  - intros Hnone.
    assert (str_count code "if " = 0%Z) by (apply Z1, Hnone; cbn; tauto).
    assert (str_count code "for " = 0%Z) by (apply Z2, Hnone; cbn; tauto).
    assert (str_count code "while " = 0%Z) by (apply Z3, Hnone; cbn; tauto).
    assert (str_count code "try:" = 0%Z) by (apply Z4, Hnone; cbn; tauto).
    assert (str_count code "except" = 0%Z) by (apply Z5, Hnone; cbn; tauto).
    lia.
Qed.

(** X16: the number of issues [detect_smells] reports lies between 0 and
    4; it is 0 exactly when the code has no "TODO", no "print(" and at most
    200 lines; and a code of at most 200 bytes is never charged for its
    length, so it has at most 2 issues. *)
Theorem smells_are_bounded code :
  ∃ issues,
    detect_smells code = {[ "issues" := issues ]} ∧
    (0 ≤ issues ≤ 4)%Z ∧
    (issues = 0%Z ↔
       py_in "TODO" code = false ∧ py_in "print(" code = false ∧
       (length (splitlines code) ≤ 200)%nat) ∧
    ((String.length code ≤ 200)%nat → (issues ≤ 2)%Z).
Proof.
  eexists. split; [reflexivity|].
  pose proof (splitlines_length code) as Hlines.
  destruct (py_in "TODO" code); destruct (py_in "print(" code);
    destruct (Nat.ltb_spec 200 (length (splitlines code))); cbn;
    repeat split; try lia; try discriminate;
    try (intros (? & ? & ?); first [discriminate | lia]).
Qed.

(** * The node [check_done] *)

Lemma check_done_call st quality threshold :
  get_or st "quality_score" (VInt 0) = VInt quality →
  get_or st "threshold" (VInt 80) = VInt threshold →
  _call_node (Some check_done) st
    = Return (∅, if (threshold <=? quality)%Z
                 then good_enough (VInt quality) (VInt threshold)
                 else try_again (VInt quality) (VInt threshold)).
Proof.
  intros Hq Ht. unfold _call_node, invoke_node, check_done, check_done_body.
  rewrite Hq, Ht. cbn. rewrite Z.geb_leb.
  destruct (threshold <=? quality)%Z; reflexivity.
Qed.

(** X17: with an integer quality and threshold in the state (a missing
    threshold counts as 80, a missing quality as 0), a step of [check_done]
    leaves the state as it is; when the quality reaches the threshold the
    edge table picks the next node, and otherwise the next node is
    "check_complexity" whatever the edge table holds. *)
Theorem check_done_decides spec current st rs quality threshold :
  table_get (nodes spec) current = Some check_done →
  get_or st "quality_score" (VInt 0) = VInt quality →
  get_or st "threshold" (VInt 80) = VInt threshold →
  ∃ rs',
    loop_body spec current st rs
      = (rs', if (threshold <=? quality)%Z
              then next_node ← edge_branch (edges spec) current st;
                   Return (st, next_node)
              else Return (st, PyStr "check_complexity")) ∧
    state rs' = st.
Proof.
  intros Hnode Hq Ht.
  rewrite loop_body_eq, Hnode, (check_done_call st quality threshold Hq Ht).
  cbn zeta. rewrite (map_empty_union st).
  destruct (threshold <=? quality)%Z; unfold resolve; cbn [nr_next_node nonempty].
  - destruct (edge_branch (edges spec) current st);
      eexists; split; reflexivity.
  - change (String.eqb "check_complexity" "") with false. cbn match.
    eexists; split; reflexivity.
Qed.

Lemma check_done_decides_witness :
  ∃ rs',
    loop_body (MoreExamples.review None) (PyStr "check_done")
              {[ "quality_score" := VInt 45; "threshold" := VInt 85 ]}
              (Examples.fresh_run ∅)
      = (rs', Return ({[ "quality_score" := VInt 45; "threshold" := VInt 85 ]},
                      PyStr "check_complexity")) ∧
    state rs' = {[ "quality_score" := VInt 45; "threshold" := VInt 85 ]}.
Proof.
  exact (check_done_decides (MoreExamples.review None) (PyStr "check_done")
           {[ "quality_score" := VInt 45; "threshold" := VInt 85 ]}
           (Examples.fresh_run ∅) 45 85 eq_refl eq_refl eq_refl).
Defined.





(** * The request handlers *)

(** X20: [POST /graph/run] answers 404 "graph not found" exactly when the
    graph identifier is not registered, and then the engine is unchanged;
    for a registered graph the reply carries the run identifier that was
    drawn. *)
Theorem run_request_404_iff_unknown_graph
    eng graph_id initial_state run_in_background uuid :
  (graphs eng !! graph_id = None →
   Main.run_graph eng graph_id initial_state run_in_background uuid
     = (eng, HTTPException 404 "graph not found")) ∧
  (is_Some (graphs eng !! graph_id) →
   ∃ reply,
     snd (Main.run_graph eng graph_id initial_state run_in_background uuid)
       = Ok reply ∧
     reply_run_id reply = uuid).
Proof.
  unfold Main.run_graph, run_graph. split.
  - intros ->. reflexivity.
  - intros [spec ->].
    destruct (default false run_in_background); cbn;
      rewrite lookup_insert_eq; eexists; split; reflexivity.
Qed.

(** X21: after a foreground [POST /graph/run] on a registered graph, the
    reply says finished, and [GET /graph/state] on the run identifier of
    the reply succeeds and shows the same state and log, finished. *)
Theorem run_then_get_state eng gid spec initial_state run_in_background uuid :
  graphs eng !! gid = Some spec →
  default false run_in_background = false →
  ∃ eng' reply shown,
    Main.run_graph eng gid initial_state run_in_background uuid
      = (eng', Ok reply) ∧
    reply_finished reply = true ∧
    Main.get_run_state eng' (reply_run_id reply) = Ok shown ∧
    sr_run_id shown = uuid ∧
    sr_state shown = reply_state reply ∧
    sr_logs shown = reply_logs reply ∧
    sr_finished shown = true.
Proof.
  intros Hgraph Hfg. unfold Main.run_graph, Main.get_run_state, run_graph.
  rewrite Hgraph, Hfg. cbn. rewrite lookup_insert_eq.
  destruct (runner_frame spec (new_run uuid gid initial_state))
    as (Hfin & _ & _).
  eexists _, _, _. split; [reflexivity|]. cbn. rewrite lookup_insert_eq.
  repeat split; assumption.
Qed.

Lemma run_then_get_state_witness :
  ∃ eng' reply shown,
    Main.run_graph Examples.engine "graph-2" ∅ None "run-7" = (eng', Ok reply) ∧
    reply_finished reply = true ∧
    Main.get_run_state eng' (reply_run_id reply) = Ok shown ∧
    sr_run_id shown = "run-7" ∧
    sr_state shown = reply_state reply ∧
    sr_logs shown = reply_logs reply ∧
    sr_finished shown = true.
Proof.
  exact (run_then_get_state Examples.engine "graph-2" Examples.dangling ∅ None
           "run-7" eq_refl eq_refl).
Defined.

Lemma run_request_404_iff_unknown_graph_witness :
  Main.run_graph Examples.engine "no-such-graph" ∅ (Some true) "run-7"
    = (Examples.engine, HTTPException 404 "graph not found") ∧
  ∃ reply,
    snd (Main.run_graph Examples.engine "graph-1" ∅ (Some true) "run-7")
      = Ok reply ∧
    reply_run_id reply = "run-7".
Proof.
  split.
  - exact (proj1 (run_request_404_iff_unknown_graph Examples.engine
                    "no-such-graph" ∅ (Some true) "run-7") eq_refl).
  - apply (proj2 (run_request_404_iff_unknown_graph Examples.engine
                    "graph-1" ∅ (Some true) "run-7")).
    eexists. reflexivity.
Defined.
